(** * The MSP client facade of fabric-sdk-go (pkg/client/msp/msp.go)

    A shallow embedding of the facade and of the interfaces it calls, and
    the properties of its six operations and of its constructor.

    Conventions of the embedding.
    - A Go [error] is an interface value that may be nil: [error] is
      [option errorValue], nil is [None].
    - A Go pointer or interface value that may be nil is an [option];
      calling a method on it, or reading a field through it, when it is
      nil panics.
    - A Go function returning [(T, error)] returns a pair; nothing is
      assumed about which component is nil.
    - A function of the facade is a computation [M S A]: it reads and
      writes a struct of type [S] reached through a pointer (the receiver
      [*MSP], the [*enrollmentOptions] handed to an option), it returns a
      value of type [A] or panics, and it leaves the list of the calls it
      made to its collaborators.
    - An interface is a record of its methods; the answers of a
      collaborator are fixed for the duration of one call of the facade. *)

From Stdlib Require Import String Ascii List ZArith Bool Lia.
From Stdlib.Strings Require Import Byte.
Import ListNotations.
Open Scope string_scope.

(** ** Errors *)

(** The error values the facade can see or build.

    Modelled from the spec: the facade's own [ErrUserNotFound] is declared
    in a sibling file of the package; the spec calls it the facade's "own
    public UserNotFoundError", a value of its own, distinct from the
    sentinel of the collaborator layer. *)
Inductive errorValue : Type :=
| errUserNotFound_mspctx                          (* mspctx.ErrUserNotFound *)
| errUserNotFound_client                          (* msp.ErrUserNotFound (client package) *)
| errorString (s : string)                        (* errors.New, fmt.Errorf *)
| withMessage (cause : errorValue) (msg : string) (* errors.WithMessage *).

Definition error : Type := option errorValue.

(** Go's [==] on two errors.  The facade only ever compares an error with
    the sentinel [mspctx.ErrUserNotFound], which no other constructor
    equals. *)
Fixpoint errorValue_eqb (a b : errorValue) : bool :=
  match a, b with
  | errUserNotFound_mspctx, errUserNotFound_mspctx => true
  | errUserNotFound_client, errUserNotFound_client => true
  | errorString s, errorString t => String.eqb s t
  | withMessage c m, withMessage d n => errorValue_eqb c d && String.eqb m n
  | _, _ => false
  end.

Definition error_eqb (a b : error) : bool :=
  match a, b with
  | None, None => true
  | Some x, Some y => errorValue_eqb x y
  | _, _ => false
  end.

Module errors.
(** github.com/pkg/errors: [WithMessage] annotates a non-nil error and
    maps nil to nil. *)
Definition WithMessage (err : error) (message : string) : error :=
  match err with
  | None => None
  | Some e => Some (withMessage e message)
  end.
End errors.

Module fmt.
(** [Sprintf] for formats whose only verb is [%s]. *)
Fixpoint Sprintf (format : string) (args : list string) : string :=
  match format with
  | EmptyString => EmptyString
  | String c rest =>
      match rest with
      | String d rest' =>
          if (Ascii.eqb c "%" && Ascii.eqb d "s")%bool then
            match args with
            | a :: args' => a ++ Sprintf rest' args'
            | [] => "%!s(MISSING)" ++ Sprintf rest' []
            end
          else String c (Sprintf rest args)
      | EmptyString => String c EmptyString
      end
  end.

Definition Errorf (format : string) (args : list string) : error :=
  Some (errorString (Sprintf format args)).
End fmt.

(** ** The collaborators' data and interfaces *)

(** An opaque reference held by the session context (credential store,
    crypto suite) or by a user (private key). *)
Definition handle : Type := N.

Module mspctx.
(** pkg/context/api/msp *)
Definition ErrUserNotFound : errorValue := errUserNotFound_mspctx.

(** Modelled from the spec: the [User] interface is declared outside
    this file; "a user has an identifier, an organization id (MSP id),
    a private key handle, and an enrollment certificate". *)
Record User : Type := {
  Name : string;
  MspID : string;
  PrivateKey : handle;
  EnrollmentCertificate : list byte
}.

(** Modelled from the spec: "Identity manager:
    GetUser(name) -> (user, error)". *)
Record IdentityManager : Type := {
  GetUser : string -> option User * error
}.
End mspctx.

Module mspapi.
(** pkg/msp/api.

    Modelled from the spec: the request and response structs are
    declared outside this file; their fields are the ones the facade
    reads and writes, and the spec's data model lists them. *)
Record Attribute : Type := {
  Attribute_Name : string;
  Attribute_Key : string;
  Attribute_Value : string
}.

Record RegistrationRequest : Type := {
  Name : string;
  Type_ : string;
  MaxEnrollments : Z;
  Affiliation : string;
  Attributes : list Attribute;
  CAName : string;
  Secret : string
}.

Record RevocationRequest : Type := {
  Revoke_Name : string;
  Revoke_Serial : string;
  Revoke_AKI : string;
  Revoke_Reason : string;
  Revoke_CAName : string
}.

Record RevokedCert : Type := {
  Serial : string;
  AKI : string
}.

Record RevocationResponse : Type := {
  RevokedCerts : list RevokedCert;
  CRL : list byte
}.

(** Modelled from the spec: "CA client: Enroll(id, secret) -> error;
    Reenroll(id) -> error; Register(request) -> (secret, error);
    Revoke(request) -> (response, error)". *)
Record CAClient : Type := {
  Enroll : string -> string -> error;
  Reenroll : string -> error;
  Register : RegistrationRequest -> string * error;
  Revoke : RevocationRequest -> option RevocationResponse * error
}.
End mspapi.

Module context.
(** pkg/common/context *)
Record ClientConfig : Type := {
  Organization : string
}.

Record Config_ : Type := {
  Client_ : option ClientConfig * error   (* Config.Client() *)
}.

(** Modelled from the spec: "context exposes client configuration
    lookup, an identity-manager lookup by organization name, a
    credential store, and a crypto-suite handle". *)
Record Client : Type := {
  Config : option Config_;
  IdentityManager : string -> option mspctx.IdentityManager * bool;
  UserStore : handle;
  CryptoSuite : handle
}.

(** [func() (Client, error)] *)
Definition ClientProvider : Type := option Client * error.
End context.

(** ** Calls made to collaborators *)

Inductive Event : Type :=
| EvClientProvider                                  (* clientProvider() *)
| EvConfigClient                                    (* ctx.Config().Client() *)
| EvIdentityManager (orgName : string)              (* ctx.IdentityManager(orgName) *)
| EvNewCAClient (orgName : string)                  (* msp.NewCAClient(orgName, ...) *)
| EvEnroll (enrollmentID secret : string)           (* ca.Enroll *)
| EvReenroll (enrollmentID : string)                (* ca.Reenroll *)
| EvRegister (r : mspapi.RegistrationRequest)       (* ca.Register *)
| EvRevoke (r : mspapi.RevocationRequest)           (* ca.Revoke *)
| EvGetUser (userName : string)                     (* im.GetUser *)
| EvOther (what : string)                           (* anything an option does *).

(** ** Computations *)

Inductive outcome (A : Type) : Type :=
| Returns (a : A)
| Panics.
Arguments Returns {A} a.
Arguments Panics {A}.

Definition M (S A : Type) : Type := S -> outcome A * S * list Event.

Definition ret {S A} (a : A) : M S A := fun s => (Returns a, s, []).

Definition bind {S A B} (m : M S A) (k : A -> M S B) : M S B :=
  fun s =>
    match m s with
    | (Returns a, s', l) =>
        match k a s' with
        | (o, s'', l') => (o, s'', (l ++ l')%list)
        end
    | (Panics, s', l) => (Panics, s', l)
    end.

Definition get {S} : M S S := fun s => (Returns s, s, []).
Definition put {S} (s' : S) : M S unit := fun _ => (Returns tt, s', []).
Definition panic {S A} : M S A := fun s => (Panics, s, []).

(** A call to a collaborator: it is recorded and its answer returned. *)
Definition call {S A} (e : Event) (answer : A) : M S A :=
  fun s => (Returns answer, s, [e]).

(** Going through a pointer or an interface value. *)
Definition deref {S A} (p : option A) : M S A :=
  match p with
  | Some a => ret a
  | None => panic
  end.

(** A computation on a local struct, which starts as [init]; the final
    local struct is returned with the result. *)
Definition scoped {S L A} (init : L) (m : M L A) : M S (A * L) :=
  fun s =>
    match m init with
    | (Returns a, l, evs) => (Returns (a, l), s, evs)
    | (Panics, _, evs) => (Panics, s, evs)
    end.

Declare Scope go_scope.
Delimit Scope go_scope with go.
Notation "x <- c1 ;; c2" := (bind c1 (fun x => c2))
  (at level 61, c1 at next level, right associativity) : go_scope.
Notation "' pat <- c1 ;; c2" := (bind c1 (fun x => match x with pat => c2 end))
  (at level 61, pat pattern, c1 at next level, right associativity) : go_scope.
Notation "c1 ;;; c2" := (bind c1 (fun _ => c2))
  (at level 61, right associativity) : go_scope.
Open Scope go_scope.

(** [for _, x := range xs { body }], where the body may return from the
    enclosing function: [Some r] is such a return, [None] is the loop
    running to its end. *)
Fixpoint for_range {S X R} (xs : list X) (body : X -> M S (option R))
  : M S (option R) :=
  match xs with
  | [] => ret None
  | x :: rest =>
      r <- body x ;;
      match r with
      | Some v => ret (Some v)
      | None => for_range rest body
      end
  end.

Definition result {S A} (r : outcome A * S * list Event) : outcome A :=
  fst (fst r).
Definition final {S A} (r : outcome A * S * list Event) : S :=
  snd (fst r).
Definition calls {S A} (r : outcome A * S * list Event) : list Event :=
  snd r.

(** A computation that leaves the struct it runs on as it found it. *)
Definition preserves {S A} (m : M S A) : Prop :=
  forall s, final (m s) = s.

(** ** The facade's own data (package pkg/client/msp) *)

(** MSP enables access to MSP services. *)
Record MSP : Type := {
  orgName : string;
  ctx : option context.Client
}.

(** The assignment [msp.orgName = name]. *)
Definition set_orgName (msp : MSP) (name : string) : MSP :=
  {| orgName := name; ctx := ctx msp |}.

(** Modelled from the spec: the request, response and identity structs of
    the client package are declared in sibling files; the fields are the
    ones msp.go reads and writes ([RevocationRequest] converts to the
    collaborator's struct, so it has the same fields). *)
Record Attribute : Type := {
  Attribute_Name : string;
  Attribute_Key : string;
  Attribute_Value : string
}.

Record RegistrationRequest : Type := {
  Name : string;
  Type_ : string;
  MaxEnrollments : Z;
  Affiliation : string;
  Attributes : list Attribute;
  CAName : string;
  Secret : string
}.

Record RevocationRequest : Type := {
  Revoke_Name : string;
  Revoke_Serial : string;
  Revoke_AKI : string;
  Revoke_Reason : string;
  Revoke_CAName : string
}.

Record RevokedCert : Type := {
  Serial : string;
  AKI : string
}.

Record RevocationResponse : Type := {
  RevokedCerts : list RevokedCert;
  CRL : list byte
}.

Record SigningIdentity : Type := {
  MspID : string;
  PrivateKey : handle;
  EnrollmentCert : list byte
}.

Definition User : Type := mspctx.User.

Definition ErrUserNotFound : errorValue := errUserNotFound_client.

(** The conversion of [*request] to [mspapi.RevocationRequest], between two
    structs with the same fields. *)
Definition mspapi_RevocationRequest (request : RevocationRequest)
  : mspapi.RevocationRequest :=
  {| mspapi.Revoke_Name := Revoke_Name request;
     mspapi.Revoke_Serial := Revoke_Serial request;
     mspapi.Revoke_AKI := Revoke_AKI request;
     mspapi.Revoke_Reason := Revoke_Reason request;
     mspapi.Revoke_CAName := Revoke_CAName request |}.

(** ClientOption describes a functional parameter for the New
    constructor: [func(msp *MSP) error]. *)
Definition ClientOption : Type := M MSP error.

(** WithOrg option *)
Definition WithOrg (orgName : string) : ClientOption :=
  msp <- get ;;
  put (set_orgName msp orgName) ;;;
  ret None.

(** enrollmentOptions represent enrollment options *)
Record enrollmentOptions : Type := {
  secret : string
}.

(** EnrollmentOption describes a functional parameter for Enroll:
    [func(o *enrollmentOptions) error]. *)
Definition EnrollmentOption : Type := M enrollmentOptions error.

(** WithSecret enrollment option *)
Definition WithSecret (secret : string) : EnrollmentOption :=
  put {| secret := secret |} ;;;
  ret None.

(** New creates a new MSP instance *)
Definition New (clientProvider : context.ClientProvider)
  (opts : list ClientOption) : M unit (option MSP * error) :=
  '(ctx, err) <- call EvClientProvider clientProvider ;;
  match err with
  | Some _ => ret (None, errors.WithMessage err "failed to create MSP")
  | None =>
      '(early, msp) <-
        scoped {| orgName := ""; ctx := ctx |}
          (for_range opts (fun param =>
             err <- param ;;
             match err with
             | Some _ =>
                 ret (Some (@None MSP,
                            errors.WithMessage err "failed to create MSP"))
             | None => ret None
             end)) ;;
      match early with
      | Some r => ret r
      | None =>
          if String.eqb (orgName msp) "" then
            ctx <- deref ctx ;;
            config <- deref (context.Config ctx) ;;
            '(clientConfig, err) <-
              call EvConfigClient (context.Client_ config) ;;
            match err with
            | Some _ =>
                ret (None, errors.WithMessage err "failed to create MSP")
            | None =>
                clientConfig <- deref clientConfig ;;
                ret (Some (set_orgName msp (context.Organization clientConfig)),
                     None)
            end
          else ret (Some msp, None)
      end
  end.

Section Facade.

(** [msp.NewCAClient] of pkg/msp, which builds the CA client from the
    organization name, the identity manager, the user store, the crypto
    suite and the configuration. *)
Variable msp_NewCAClient :
  string -> option mspctx.IdentityManager -> handle -> handle ->
  option context.Config_ -> option mspapi.CAClient * error.

Definition newCAClient {S} (ctx : option context.Client) (orgName : string)
  : M S (option mspapi.CAClient * error) :=
  ctx <- deref ctx ;;
  '(identityManager, ok) <-
    call (EvIdentityManager orgName) (context.IdentityManager ctx orgName) ;;
  if negb ok then
    ret (None,
         fmt.Errorf "identity manager not found for organization '%s"
           [orgName])
  else
    '(caClient, err) <-
      call (EvNewCAClient orgName)
        (msp_NewCAClient orgName identityManager (context.UserStore ctx)
           (context.CryptoSuite ctx) (context.Config ctx)) ;;
    match err with
    | Some _ => ret (None, errors.WithMessage err "failed to create CA MSP")
    | None => ret (caClient, None)
    end.

(** Enroll enrolls a registered user in order to receive a signed X509
    certificate. *)
Definition Enroll (enrollmentID : string) (opts : list EnrollmentOption)
  : M MSP error :=
  '(early, eo) <-
    scoped {| secret := "" |}
      (for_range opts (fun param =>
         err <- param ;;
         match err with
         | Some _ => ret (Some (errors.WithMessage err "failed to enroll"))
         | None => ret None
         end)) ;;
  match early with
  | Some r => ret r
  | None =>
      c <- get ;;
      '(ca, err) <- newCAClient (ctx c) (orgName c) ;;
      match err with
      | Some _ => ret err
      | None =>
          ca <- deref ca ;;
          call (EvEnroll enrollmentID (secret eo))
            (mspapi.Enroll ca enrollmentID (secret eo))
      end
  end.

(** Reenroll reenrolls an enrolled user in order to obtain a new signed
    X509 certificate *)
Definition Reenroll (enrollmentID : string) : M MSP error :=
  c <- get ;;
  '(ca, err) <- newCAClient (ctx c) (orgName c) ;;
  match err with
  | Some _ => ret err
  | None =>
      ca <- deref ca ;;
      call (EvReenroll enrollmentID) (mspapi.Reenroll ca enrollmentID)
  end.

(** Register registers a User with the Fabric CA *)
Definition Register (request : option RegistrationRequest)
  : M MSP (string * error) :=
  c <- get ;;
  '(ca, err) <- newCAClient (ctx c) (orgName c) ;;
  match err with
  | Some _ => ret ("", err)
  | None =>
      request <- deref request ;;
      let a : list mspapi.Attribute :=
        fold_left
          (fun a attr =>
             (a ++ [ {| mspapi.Attribute_Name := Attribute_Name attr;
                        mspapi.Attribute_Key := Attribute_Key attr;
                        mspapi.Attribute_Value := Attribute_Value attr |} ])%list)
          (Attributes request) [] in
      let r : mspapi.RegistrationRequest :=
        {| mspapi.Name := Name request;
           mspapi.Type_ := Type_ request;
           mspapi.MaxEnrollments := MaxEnrollments request;
           mspapi.Affiliation := Affiliation request;
           mspapi.Attributes := [];   (* the field is not set: zero value *)
           mspapi.CAName := CAName request;
           mspapi.Secret := Secret request |} in
      ca <- deref ca ;;
      call (EvRegister r) (mspapi.Register ca r)
  end.

(** Revoke revokes a User with the Fabric CA *)
Definition Revoke (request : option RevocationRequest)
  : M MSP (option RevocationResponse * error) :=
  c <- get ;;
  '(ca, err) <- newCAClient (ctx c) (orgName c) ;;
  match err with
  | Some _ => ret (None, err)
  | None =>
      request <- deref request ;;
      let req := mspapi_RevocationRequest request in
      ca <- deref ca ;;
      '(resp, err) <- call (EvRevoke req) (mspapi.Revoke ca req) ;;
      match err with
      | Some _ => ret (None, err)
      | None =>
          resp <- deref resp ;;
          let revokedCerts : list RevokedCert :=
            fold_left
              (fun revokedCerts rc =>
                 (revokedCerts ++
                    [ {| Serial := mspapi.Serial rc;
                         AKI := mspapi.AKI rc |} ])%list)
              (mspapi.RevokedCerts resp) [] in
          ret (Some {| RevokedCerts := revokedCerts;
                       CRL := mspapi.CRL resp |}, None)
      end
  end.

(** GetUser returns a user for the given user name *)
Definition GetUser (userName : string) : M MSP (option User * error) :=
  c <- get ;;
  ctx <- deref (ctx c) ;;
  '(im, _) <-
    call (EvIdentityManager (orgName c))
      (context.IdentityManager ctx (orgName c)) ;;
  im <- deref im ;;
  '(user, err) <- call (EvGetUser userName) (mspctx.GetUser im userName) ;;
  match err with
  | Some _ =>
      if error_eqb err (Some mspctx.ErrUserNotFound) then
        ret (None, Some ErrUserNotFound)
      else ret (None, err)
  | None => ret (user, None)
  end.

(** GetSigningIdentity returns a signing identity for the given user
    name *)
Definition GetSigningIdentity (userName : string)
  : M MSP (option SigningIdentity * error) :=
  '(user, err) <- GetUser userName ;;
  match err with
  | Some _ =>
      if error_eqb err (Some mspctx.ErrUserNotFound) then
        ret (None, Some ErrUserNotFound)
      else ret (None, err)
  | None =>
      user <- deref user ;;
      ret (Some {| MspID := mspctx.MspID user;
                   PrivateKey := mspctx.PrivateKey user;
                   EnrollmentCert := mspctx.EnrollmentCertificate user |},
           None)
  end.

End Facade.

(** ** Notions used to state the properties *)

(** A sequence of options applied in order, none of which fails: the
    struct they leave and the calls they made. *)
Inductive applied {S} : list (M S error) -> S -> S -> list Event -> Prop :=
| applied_nil s : applied [] s s []
| applied_cons o opts s s1 s2 l1 l2 :
    o s = (Returns None, s1, l1) ->
    applied opts s1 s2 l2 ->
    applied (o :: opts) s s2 (l1 ++ l2)%list.

(** The error of [newCAClient] for an organization without identity
    manager. *)
Definition unavailable (org : string) : error :=
  fmt.Errorf "identity manager not found for organization '%s" [org].

(** The translation of one revoked certificate in [Revoke]. *)
Definition convertRevokedCert (rc : mspapi.RevokedCert) : RevokedCert :=
  {| Serial := mspapi.Serial rc; AKI := mspapi.AKI rc |}.

(** ** Test doubles

    A session with one organization, [Org1MSP], whose identity manager
    knows the user [alice], and a CA that accepts one enrollment secret. *)
Module Stub.

Definition alice : mspctx.User :=
  {| mspctx.Name := "alice";
     mspctx.MspID := "Org1MSP";
     mspctx.PrivateKey := 7%N;
     mspctx.EnrollmentCertificate := [x2d; x2d; x2d] |}.

Definition identityManager : mspctx.IdentityManager :=
  {| mspctx.GetUser := fun userName =>
       if String.eqb userName "alice" then (Some alice, None)
       else (None, Some mspctx.ErrUserNotFound) |}.

Definition config : context.Config_ :=
  {| context.Client_ := (Some {| context.Organization := "Org1MSP" |}, None) |}.

Definition client : context.Client :=
  {| context.Config := Some config;
     context.IdentityManager := fun orgName =>
       if String.eqb orgName "Org1MSP" then (Some identityManager, true)
       else (None, false);
     context.UserStore := 1%N;
     context.CryptoSuite := 2%N |}.

Definition rejected : errorValue := errorString "enroll failed: wrong secret".
Definition unknownCert : errorValue := errorString "revoke failed: unknown AKI".

Definition ca : mspapi.CAClient :=
  {| mspapi.Enroll := fun _ secret =>
       if String.eqb secret "enrollmentSecret" then None else Some rejected;
     mspapi.Reenroll := fun _ => None;
     mspapi.Register := fun r => ("secret-of-" ++ mspapi.Name r, None);
     mspapi.Revoke := fun r =>
       if String.eqb (mspapi.Revoke_AKI r) "" then
         (Some {| mspapi.RevokedCerts := []; mspapi.CRL := [x30] |}, None)
       else (None, Some unknownCert) |}.

Definition NewCAClient (orgName : string)
  (im : option mspctx.IdentityManager) (userStore cryptoSuite : handle)
  (config : option context.Config_) : option mspapi.CAClient * error :=
  (Some ca, None).

(** The facade for [Org1MSP], and one for an organization without an
    identity manager. *)
Definition org1 : MSP := {| orgName := "Org1MSP"; ctx := Some client |}.
Definition org2 : MSP := {| orgName := "Org2MSP"; ctx := Some client |}.

Definition aliceRequest : RegistrationRequest :=
  {| Name := "alice";
     Type_ := "client";
     MaxEnrollments := 1;
     Affiliation := "org1.department1";
     Attributes :=
       [ {| Attribute_Name := "hf.Revoker";
            Attribute_Key := "";
            Attribute_Value := "true" |} ];
     CAName := "ca.org1";
     Secret := "" |}.

Definition nobody : RevocationRequest :=
  {| Revoke_Name := "nobody";
     Revoke_Serial := "";
     Revoke_AKI := "";
     Revoke_Reason := "";
     Revoke_CAName := "ca.org1" |}.

Definition badAKI : RevocationRequest :=
  {| Revoke_Name := "";
     Revoke_Serial := "1a2b";
     Revoke_AKI := "ffff";
     Revoke_Reason := "";
     Revoke_CAName := "ca.org1" |}.

(** An option that fails, and one that leaves a mark when applied. *)
Definition failing : ClientOption := ret (Some (errorString "bad option")).
Definition noisy : ClientOption := call (EvOther "noisy option applied") None.

End Stub.

(** The signing identity [GetSigningIdentity] builds from a user. *)
Definition signingIdentityOf (user : mspctx.User) : SigningIdentity :=
  {| MspID := mspctx.MspID user;
     PrivateKey := mspctx.PrivateKey user;
     EnrollmentCert := mspctx.EnrollmentCertificate user |}.

(** A Go result [(value, error)] with exactly one of the two non-nil, or
    no result at all because of a panic. *)
Definition exclusive {A} (r : outcome (option A * error)) : Prop :=
  match r with
  | Returns (Some _, None) => True
  | Returns (None, Some _) => True
  | Returns _ => False
  | Panics => True
  end.

(** More test doubles: collaborators that fail, and a CA that revokes. *)
Module Fixture.

Definition noCAConfig : errorValue := errorString "no CA configured".
Definition unreadable : errorValue := errorString "user store unreadable".
Definition noClientConfig : errorValue := errorString "client section missing".

Definition failingNewCAClient (orgName : string)
  (im : option mspctx.IdentityManager) (userStore cryptoSuite : handle)
  (config : option context.Config_) : option mspapi.CAClient * error :=
  (None, Some noCAConfig).

Definition brokenManager : mspctx.IdentityManager :=
  {| mspctx.GetUser := fun _ => (Some Stub.alice, Some unreadable) |}.

Definition brokenClient : context.Client :=
  {| context.Config := Some {| context.Client_ := (None, Some noClientConfig) |};
     context.IdentityManager := fun _ => (Some brokenManager, false);
     context.UserStore := 1%N;
     context.CryptoSuite := 2%N |}.

Definition broken : MSP := {| orgName := "Org1MSP"; ctx := Some brokenClient |}.

Definition detached : MSP := {| orgName := "Org1MSP"; ctx := None |}.

Definition revoked : list mspapi.RevokedCert :=
  [ {| mspapi.Serial := "1a2b"; mspapi.AKI := "ffff" |};
    {| mspapi.Serial := "3c4d"; mspapi.AKI := "eeee" |} ].

Definition revokingCA : mspapi.CAClient :=
  {| mspapi.Enroll := fun _ _ => None;
     mspapi.Reenroll := fun _ => None;
     mspapi.Register := fun r => ("", None);
     mspapi.Revoke := fun _ =>
       (Some {| mspapi.RevokedCerts := revoked; mspapi.CRL := [x30; x31] |},
        None) |}.

Definition revokingNewCAClient (orgName : string)
  (im : option mspctx.IdentityManager) (userStore cryptoSuite : handle)
  (config : option context.Config_) : option mspapi.CAClient * error :=
  (Some revokingCA, None).

(** An enrollment option that fails. *)
Definition badOption : EnrollmentOption :=
  ret (Some (errorString "bad enrollment option")).

End Fixture.

Example New_default_org :
  New (Some Stub.client, None) [] tt
  = (Returns (Some Stub.org1, None), tt, [EvClientProvider; EvConfigClient]).
Proof. reflexivity. Qed.

Example Enroll_alice :
  Enroll Stub.NewCAClient "alice" [WithSecret "enrollmentSecret"] Stub.org1
  = (Returns None, Stub.org1,
     [EvIdentityManager "Org1MSP"; EvNewCAClient "Org1MSP";
      EvEnroll "alice" "enrollmentSecret"]).
Proof. reflexivity. Qed.

Example GetSigningIdentity_alice :
  result (GetSigningIdentity "alice" Stub.org1)
  = Returns (Some {| MspID := "Org1MSP"; PrivateKey := 7%N;
                     EnrollmentCert := [x2d; x2d; x2d] |}, None).
Proof. reflexivity. Qed.

Example Reenroll_unregistered_org :
  result (Reenroll Stub.NewCAClient "alice" Stub.org2)
  = Returns (Some (errorString
                     "identity manager not found for organization 'Org2MSP")).
Proof. reflexivity. Qed.

(** ** Auxiliary facts *)

Lemma errorValue_eqb_spec (a b : errorValue) :
  errorValue_eqb a b = true <-> a = b.
Proof.
  revert b; induction a as [ | | s | c IH m]; intros [ | | t | d n]; cbn;
    try (split; [discriminate | congruence]); try tauto.
  - rewrite String.eqb_eq. split; congruence.
  - rewrite andb_true_iff, IH, String.eqb_eq. split.
    + intros [-> ->]; reflexivity.
    + intros H; injection H; auto.
Qed.

Lemma error_eqb_spec (a b : error) : error_eqb a b = true <-> a = b.
Proof.
  destruct a as [x|], b as [y|]; cbn;
    try (split; [discriminate | congruence]); try tauto.
  rewrite errorValue_eqb_spec. split; congruence.
Qed.

Lemma string_app_nil_r (s : string) : s ++ "" = s.
Proof. induction s as [|a s IH]; cbn; [reflexivity | now rewrite IH]. Qed.

(** The append loops of [Register] and [Revoke] are maps. *)
Lemma fold_left_snoc {X Y} (f : X -> Y) (xs : list X) (acc : list Y) :
  fold_left (fun acc x => (acc ++ [f x])%list) xs acc = (acc ++ map f xs)%list.
Proof.
  revert acc; induction xs as [|x xs IH]; intros acc; cbn.
  - now rewrite app_nil_r.
  - rewrite IH, <- app_assoc. reflexivity.
Qed.

Lemma applied_snoc {S} (opts : list (M S error)) o s s1 s2 l1 l2 :
  applied opts s s1 l1 ->
  o s1 = (Returns None, s2, l2) ->
  applied (opts ++ [o]) s s2 (l1 ++ l2)%list.
Proof.
  induction 1 as [s | o' opts s sa sb la lb Ho' _ IH]; intros Ho; cbn.
  - rewrite <- (app_nil_r l2). econstructor; [eassumption | constructor].
  - rewrite <- app_assoc. econstructor; [eassumption | auto].
Qed.

Lemma applied_WithSecret (s : string) (eo : enrollmentOptions) :
  applied [WithSecret s] eo {| secret := s |} [].
Proof.
  change (@nil Event) with (([] : list Event) ++ [])%list.
  econstructor; [reflexivity | constructor].
Qed.

Lemma applied_WithOrg (name : string) (msp : MSP) :
  applied [WithOrg name] msp (set_orgName msp name) [].
Proof.
  change (@nil Event) with (([] : list Event) ++ [])%list.
  econstructor; [reflexivity | constructor].
Qed.

Section OptionLoop.
Context {S R : Type} (fail : error -> R).

(** The loop both [New] and [Enroll] run over their options. *)
Let body (param : M S error) : M S (option R) :=
  err <- param ;;
  match err with
  | Some _ => ret (Some (fail err))
  | None => ret None
  end.

Lemma for_range_applied opts s s' l :
  applied opts s s' l ->
  for_range opts body s = (Returns None, s', l).
Proof.
  induction 1 as [s | o opts s s1 s2 l1 l2 Ho _ IH]; [reflexivity|].
  cbn. unfold bind at 1. unfold body at 1. unfold bind at 1. rewrite Ho.
  cbn. rewrite IH. now rewrite app_nil_r.
Qed.

Lemma for_range_fails pre (bad : M S error) post s s1 s2 e l1 l2 :
  applied pre s s1 l1 ->
  bad s1 = (Returns (Some e), s2, l2) ->
  for_range (pre ++ bad :: post) body s
  = (Returns (Some (fail (Some e))), s2, (l1 ++ l2)%list).
Proof.
  induction 1 as [s | o opts s sa sb la lb Ho _ IH]; intros Hbad; cbn.
  - unfold bind at 1. unfold body at 1. unfold bind at 1. rewrite Hbad.
    cbn. now rewrite !app_nil_r.
  - unfold bind at 1. unfold body at 1. unfold bind at 1. rewrite Ho.
    cbn. rewrite (IH Hbad). now rewrite app_nil_r, app_assoc.
Qed.

Lemma for_range_None opts :
  forall s s' l,
    for_range opts body s = (Returns None, s', l) -> applied opts s s' l.
Proof.
  induction opts as [|o opts IH]; intros s s' l H; cbn in H.
  - injection H as <- <-. constructor.
  - unfold bind at 1 in H. unfold body at 1 in H. unfold bind at 1 in H.
    destruct (o s) as [[[[e|]|] s1] l1] eqn:Ho; cbn in H; try discriminate.
    destruct (for_range opts body s1) as [[o2 s2] l2] eqn:Hr.
    rewrite app_nil_r in H. injection H as -> -> <-.
    econstructor; [exact Ho | apply IH; exact Hr].
Qed.
End OptionLoop.

(** ** User lookup: the not-found sentinel *)

Lemma GetUser_never_sentinel (userName : string) (c : MSP) (v : option User) :
  result (GetUser userName c) <> Returns (v, Some mspctx.ErrUserNotFound).
Proof.
  unfold GetUser, result, bind, get, deref, call, ret, panic.
  destruct (ctx c) as [cx|]; cbn; [|discriminate].
  destruct (context.IdentityManager cx (orgName c)) as [[im|] ok]; cbn;
    [|discriminate].
  destruct (mspctx.GetUser im userName) as [user [e|]]; cbn; [|discriminate].
  destruct (errorValue_eqb e mspctx.ErrUserNotFound) eqn:He; cbn.
  - discriminate.
  - intros H. injection H as _ ->. now destruct v; discriminate He.
Qed.

(** C1. Whenever the identity manager of the facade's organization answers
    [GetUser] with the not-found sentinel [mspctx.ErrUserNotFound], both
    [GetUser] and [GetSigningIdentity] of the facade return the facade's
    own [ErrUserNotFound]; and no call of either operation, on any facade
    and any user name, returns the collaborator's sentinel. *)
Theorem user_not_found_is_translated :
  (forall (c : MSP) cx im ok userName user,
      ctx c = Some cx ->
      context.IdentityManager cx (orgName c) = (Some im, ok) ->
      mspctx.GetUser im userName = (user, Some mspctx.ErrUserNotFound) ->
      result (GetUser userName c) = Returns (None, Some ErrUserNotFound) /\
      result (GetSigningIdentity userName c)
      = Returns (None, Some ErrUserNotFound)) /\
  (forall (c : MSP) userName v,
      result (GetUser userName c)
      <> Returns (v, Some mspctx.ErrUserNotFound)) /\
  (forall (c : MSP) userName v,
      result (GetSigningIdentity userName c)
      <> Returns (v, Some mspctx.ErrUserNotFound)).
Proof.
  split; [|split].
  - intros c cx im ok userName user Hctx Him Hget.
    assert (Hu : GetUser userName c
                 = (Returns (None, Some ErrUserNotFound), c,
                    [EvIdentityManager (orgName c); EvGetUser userName])).
    { unfold GetUser, bind, get, deref, call, ret.
      rewrite Hctx; cbn. rewrite Him; cbn. rewrite Hget; cbn. reflexivity. }
    split.
    + now rewrite Hu.
    + unfold GetSigningIdentity, bind. rewrite Hu. reflexivity.
  - intros c userName v. apply GetUser_never_sentinel.
  - intros c userName v. unfold GetSigningIdentity, result, bind.
    destruct (GetUser userName c) as [[[[user [e|]]|] s] l] eqn:Hu; cbn;
      try discriminate.
    + destruct (errorValue_eqb e mspctx.ErrUserNotFound) eqn:He; cbn.
      * discriminate.
      * intros H. injection H as _ ->. discriminate He.
    + destruct user; cbn; discriminate.
Qed.

Lemma user_not_found_is_translated_witness :
  result (GetUser "unknown" Stub.org1) = Returns (None, Some ErrUserNotFound) /\
  result (GetSigningIdentity "unknown" Stub.org1)
  = Returns (None, Some ErrUserNotFound).
Proof.
  apply (proj1 user_not_found_is_translated Stub.org1 Stub.client
           Stub.identityManager true "unknown" None);
    reflexivity.
Defined.

(** ** Resolving the CA client *)

Section Resolution.
Variable NewCA :
  string -> option mspctx.IdentityManager -> handle -> handle ->
  option context.Config_ -> option mspapi.CAClient * error.

Lemma unavailable_message org :
  unavailable org
  = Some (errorString
            ("identity manager not found for organization '" ++ org)).
Proof. unfold unavailable, fmt.Errorf. cbn. now rewrite string_app_nil_r. Qed.

Lemma newCAClient_unavailable {S} cx org im (s : S) :
  context.IdentityManager cx org = (im, false) ->
  newCAClient NewCA (Some cx) org s
  = (Returns (None, unavailable org), s, [EvIdentityManager org]).
Proof.
  intros Him. unfold newCAClient, bind, deref, call, ret. cbn.
  rewrite Him. reflexivity.
Qed.

Lemma newCAClient_resolved {S} cx org im ca (s : S) :
  context.IdentityManager cx org = (im, true) ->
  NewCA org im (context.UserStore cx) (context.CryptoSuite cx)
    (context.Config cx) = (ca, None) ->
  newCAClient NewCA (Some cx) org s
  = (Returns (ca, None), s, [EvIdentityManager org; EvNewCAClient org]).
Proof.
  intros Him Hca. unfold newCAClient, bind, deref, call, ret. cbn.
  rewrite Him. cbn. rewrite Hca. reflexivity.
Qed.

(** [newCAClient] neither reads nor writes the struct it runs on. *)
Lemma newCAClient_state {S T} octx org (s : S) (t : T) :
  newCAClient NewCA octx org t
  = (result (newCAClient NewCA octx org s), t,
     calls (newCAClient NewCA octx org s)).
Proof.
  unfold newCAClient, bind, deref, call, ret, panic, result, calls.
  destruct octx as [cx|]; cbn; [|reflexivity].
  destruct (context.IdentityManager cx org) as [im [|]]; cbn;
    [|reflexivity].
  destruct (NewCA org im _ _ _) as [ca [e|]]; reflexivity.
Qed.

(** [Enroll] after its options have been applied without error. *)
Lemma Enroll_after_options id opts eo l (c : MSP) :
  applied opts {| secret := "" |} eo l ->
  Enroll NewCA id opts c
  = (let r := newCAClient NewCA (ctx c) (orgName c) c in
     match result r with
     | Returns (ca, None) =>
         match ca with
         | Some ca =>
             (Returns (mspapi.Enroll ca id (secret eo)), c,
               (l ++ calls r ++ [EvEnroll id (secret eo)])%list)
         | None => (Panics, c, (l ++ calls r)%list)
         end
     | Returns (_, Some e) => (Returns (Some e), c, (l ++ calls r)%list)
     | Panics => (Panics, c, (l ++ calls r)%list)
     end).
Proof.
  intros Happ. unfold Enroll.
  apply (for_range_applied (fun err => errors.WithMessage err "failed to enroll"))
    in Happ.
  unfold bind at 1. unfold scoped, EnrollmentOption. cbv zeta in Happ.
  rewrite Happ.
  cbn. unfold bind, result, calls.
  pose proof (newCAClient_state (ctx c) (orgName c) c c) as Hst.
  unfold result, calls in Hst.
  destruct (newCAClient NewCA (ctx c) (orgName c) c) as [[o s] lc].
  cbn in Hst. injection Hst as ->.
  destruct o as [[[ca|] [e|]]|]; cbn; now rewrite ?app_nil_r.
Qed.
End Resolution.

(** ** The operations *)

Section Operations.
Variable NewCA :
  string -> option mspctx.IdentityManager -> handle -> handle ->
  option context.Config_ -> option mspapi.CAClient * error.

(** The calls of [Reenroll], [Register] and [Revoke] start with the
    calls that resolve the CA client. *)
Lemma Reenroll_resolves_first id c :
  exists rest, calls (Reenroll NewCA id c) = (calls (newCAClient NewCA (ctx c) (orgName c) c) ++ rest)%list.
Proof.
  unfold Reenroll, bind, get, calls. cbn.
  destruct (newCAClient NewCA (ctx c) (orgName c) c)
    as [[[[[ca|] [e|]]|] s] lc]; cbn; eauto using app_nil_r.
  all: eexists; symmetry; apply app_nil_r.
Qed.

Lemma Register_resolves_first request c :
  exists rest,
    calls (Register NewCA request c) = (calls (newCAClient NewCA (ctx c) (orgName c) c) ++ rest)%list.
Proof.
  unfold Register, bind, get, calls. cbn.
  destruct (newCAClient NewCA (ctx c) (orgName c) c)
    as [[[[[ca|] [e|]]|] s] lc]; cbn;
    try (eexists; symmetry; apply app_nil_r);
    destruct request as [request|]; cbn; eauto.
Qed.

Lemma Revoke_resolves_first request c :
  exists rest,
    calls (Revoke NewCA request c) = (calls (newCAClient NewCA (ctx c) (orgName c) c) ++ rest)%list.
Proof.
  unfold Revoke, bind, get, calls. cbn.
  destruct (newCAClient NewCA (ctx c) (orgName c) c)
    as [[[[[ca|] [e|]]|] s] lc]; cbn;
    try (eexists; symmetry; apply app_nil_r);
    destruct request as [request|]; cbn; eauto.
  destruct (mspapi.Revoke ca _) as [[resp|] [e|]]; cbn; eauto.
Qed.

Lemma GetUser_calls userName c :
  calls (GetUser userName c) = []
  \/ calls (GetUser userName c) = [EvIdentityManager (orgName c)]
  \/ calls (GetUser userName c)
     = [EvIdentityManager (orgName c); EvGetUser userName].
Proof.
  unfold GetUser, calls, bind, get, deref, call, ret, panic.
  destruct (ctx c) as [cx|]; cbn; [|auto].
  destruct (context.IdentityManager cx (orgName c)) as [[im|] ok]; cbn;
    [|auto].
  destruct (mspctx.GetUser im userName) as [user [e|]]; cbn; [|auto].
  destruct (errorValue_eqb e mspctx.ErrUserNotFound); cbn; auto.
Qed.

Lemma GetSigningIdentity_calls userName c :
  calls (GetSigningIdentity userName c) = calls (GetUser userName c).
Proof.
  unfold GetSigningIdentity, calls, bind.
  destruct (GetUser userName c) as [[[[user [e|]]|] s] l]; cbn;
    [ | |reflexivity].
  - destruct (errorValue_eqb e mspctx.ErrUserNotFound); cbn;
      apply app_nil_r.
  - destruct user; cbn; apply app_nil_r.
Qed.

(** On a facade with a context, the first call of [GetUser] is the
    lookup of the identity manager of the facade's organization; when a
    manager is returned, the second and last is that manager's
    [GetUser]. *)
Lemma GetUser_looks_up userName (c : MSP) cx :
  ctx c = Some cx ->
  (exists rest,
      calls (GetUser userName c) = EvIdentityManager (orgName c) :: rest) /\
  (forall im ok,
      context.IdentityManager cx (orgName c) = (Some im, ok) ->
      calls (GetUser userName c)
      = [EvIdentityManager (orgName c); EvGetUser userName]).
Proof.
  intros Hctx. unfold GetUser, calls, bind, get, deref, call, ret, panic.
  rewrite Hctx; cbn. split.
  - destruct (context.IdentityManager cx (orgName c)) as [[im|] ok]; cbn;
      [|eexists; reflexivity].
    destruct (mspctx.GetUser im userName) as [user [e|]]; cbn;
      [|eexists; reflexivity].
    destruct (errorValue_eqb e mspctx.ErrUserNotFound); cbn;
      eexists; reflexivity.
  - intros im ok Him. rewrite Him; cbn.
    destruct (mspctx.GetUser im userName) as [user [e|]]; cbn;
      [|reflexivity].
    destruct (errorValue_eqb e mspctx.ErrUserNotFound); reflexivity.
Qed.

(** C2, as amended. [Reenroll], [Register] and [Revoke], and [Enroll]
    once its enrollment options have been applied without error, first
    resolve a CA client bound to the facade's organization; when no
    identity manager is registered for that organization they fail,
    after the identity-manager lookup and without any further call,
    with the error "identity manager not found for organization
    '<org>", whose text ends with the organization name.
    [GetUser] and [GetSigningIdentity] resolve no CA client: on a facade
    with a context they look up the identity manager of the
    organization themselves, as their first call, and call [GetUser] on
    the manager it returns. *)
Theorem CA_operations_without_identity_manager :
  (forall (c : MSP) cx im,
      ctx c = Some cx ->
      context.IdentityManager cx (orgName c) = (im, false) ->
      unavailable (orgName c)
      = Some (errorString
                ("identity manager not found for organization '"
                   ++ orgName c)) /\
      (forall id opts eo l,
          applied opts {| secret := "" |} eo l ->
          Enroll NewCA id opts c
          = (Returns (unavailable (orgName c)), c,
             (l ++ [EvIdentityManager (orgName c)])%list)) /\
      (forall id,
          Reenroll NewCA id c
          = (Returns (unavailable (orgName c)), c,
             [EvIdentityManager (orgName c)])) /\
      (forall request,
          Register NewCA request c
          = (Returns ("", unavailable (orgName c)), c,
             [EvIdentityManager (orgName c)])) /\
      (forall request,
          Revoke NewCA request c
          = (Returns (None, unavailable (orgName c)), c,
             [EvIdentityManager (orgName c)]))) /\
  (forall (c : MSP),
      (forall id opts eo l,
          applied opts {| secret := "" |} eo l ->
          exists rest,
            calls (Enroll NewCA id opts c)
            = (l ++ calls (newCAClient NewCA (ctx c) (orgName c) c)
                 ++ rest)%list) /\
      (forall id, exists rest,
          calls (Reenroll NewCA id c)
          = (calls (newCAClient NewCA (ctx c) (orgName c) c) ++ rest)%list) /\
      (forall request, exists rest,
          calls (Register NewCA request c)
          = (calls (newCAClient NewCA (ctx c) (orgName c) c) ++ rest)%list) /\
      (forall request, exists rest,
          calls (Revoke NewCA request c)
          = (calls (newCAClient NewCA (ctx c) (orgName c) c) ++ rest)%list)) /\
  (forall (c : MSP) userName org,
      ~ In (EvNewCAClient org) (calls (GetUser userName c)) /\
      ~ In (EvNewCAClient org) (calls (GetSigningIdentity userName c))) /\
  (forall (c : MSP) cx userName,
      ctx c = Some cx ->
      (exists rest,
          calls (GetUser userName c)
          = EvIdentityManager (orgName c) :: rest) /\
      (exists rest,
          calls (GetSigningIdentity userName c)
          = EvIdentityManager (orgName c) :: rest) /\
      (forall im ok,
          context.IdentityManager cx (orgName c) = (Some im, ok) ->
          calls (GetUser userName c)
          = [EvIdentityManager (orgName c); EvGetUser userName] /\
          calls (GetSigningIdentity userName c)
          = [EvIdentityManager (orgName c); EvGetUser userName])).
Proof.
  split; [|split; [|split]].
  - intros c cx im Hctx Him.
    pose proof (newCAClient_unavailable NewCA cx (orgName c) im c Him) as Hn.
    rewrite <- Hctx in Hn.
    split; [apply unavailable_message|].
    split; [|split; [|split]].
    + intros id opts eo l Happ.
      rewrite (Enroll_after_options NewCA id opts eo l c Happ).
      cbv zeta. rewrite Hn. reflexivity.
    + intros id. unfold Reenroll, bind, get. cbn. rewrite Hn. reflexivity.
    + intros request. unfold Register, bind, get. cbn. rewrite Hn.
      reflexivity.
    + intros request. unfold Revoke, bind, get. cbn. rewrite Hn.
      reflexivity.
  - intros c. split; [|split; [|split]].
    + intros id opts eo l Happ.
      rewrite (Enroll_after_options NewCA id opts eo l c Happ).
      cbv zeta.
      destruct (newCAClient NewCA (ctx c) (orgName c) c)
        as [[[[[ca|] [e|]]|] s] lc]; cbn; eauto;
        exists []; now rewrite app_nil_r.
    + intros id. apply Reenroll_resolves_first.
    + intros request. apply Register_resolves_first.
    + intros request. apply Revoke_resolves_first.
  - intros c userName org. rewrite GetSigningIdentity_calls.
    assert (H : ~ In (EvNewCAClient org) (calls (GetUser userName c))).
    { destruct (GetUser_calls userName c) as [-> | [-> | ->]]; cbn;
        intuition discriminate. }
    split; exact H.
  - intros c cx userName Hctx. rewrite GetSigningIdentity_calls.
    destruct (GetUser_looks_up userName c cx Hctx) as [Hfirst Hboth].
    split; [exact Hfirst|]. split; [exact Hfirst|].
    intros im ok Him. split; exact (Hboth im ok Him).
Qed.
End Operations.

Lemma CA_operations_without_identity_manager_witness :
  (Enroll Stub.NewCAClient "alice" [WithSecret "s3cr3t"] Stub.org2
   = (Returns (unavailable "Org2MSP"), Stub.org2, [EvIdentityManager "Org2MSP"])
   /\ Reenroll Stub.NewCAClient "alice" Stub.org2
      = (Returns (unavailable "Org2MSP"), Stub.org2,
         [EvIdentityManager "Org2MSP"])
   /\ Register Stub.NewCAClient (Some Stub.aliceRequest) Stub.org2
      = (Returns ("", unavailable "Org2MSP"), Stub.org2,
         [EvIdentityManager "Org2MSP"])
   /\ Revoke Stub.NewCAClient (Some Stub.nobody) Stub.org2
      = (Returns (None, unavailable "Org2MSP"), Stub.org2,
         [EvIdentityManager "Org2MSP"]))
  /\ calls (GetUser "alice" Stub.org1)
     = [EvIdentityManager "Org1MSP"; EvGetUser "alice"]
  /\ calls (GetSigningIdentity "alice" Stub.org1)
     = [EvIdentityManager "Org1MSP"; EvGetUser "alice"].
Proof.
  pose proof (proj1 (CA_operations_without_identity_manager Stub.NewCAClient)
                Stub.org2 Stub.client None eq_refl eq_refl)
    as (_ & E & R & G & V).
  pose proof (proj2 (proj2 (proj2
                (CA_operations_without_identity_manager Stub.NewCAClient)))
                Stub.org1 Stub.client "alice" eq_refl)
    as (_ & _ & L).
  split; [split; [|split; [|split]] |].
  - exact (E "alice" [WithSecret "s3cr3t"] _ [] (applied_WithSecret "s3cr3t" _)).
  - exact (R "alice").
  - exact (G (Some Stub.aliceRequest)).
  - exact (V (Some Stub.nobody)).
  - exact (L Stub.identityManager true eq_refl).
Defined.

(** C2 as stated fails for the two lookups: on the facade of an
    organization whose identity manager is registered and whose CA
    client can be created, [GetUser] and [GetSigningIdentity] return the
    user and its identity without resolving a CA client.  Resolving one
    would call [msp.NewCAClient]; their calls are the identity-manager
    lookup and the manager's [GetUser], and do not start with the calls
    of [newCAClient]. *)
Lemma lookups_resolve_no_CA_client :
  calls (newCAClient Stub.NewCAClient (ctx Stub.org1) (orgName Stub.org1)
           Stub.org1)
  = [EvIdentityManager "Org1MSP"; EvNewCAClient "Org1MSP"] /\
  GetUser "alice" Stub.org1
  = (Returns (Some Stub.alice, None), Stub.org1,
     [EvIdentityManager "Org1MSP"; EvGetUser "alice"]) /\
  GetSigningIdentity "alice" Stub.org1
  = (Returns (Some (signingIdentityOf Stub.alice), None), Stub.org1,
     [EvIdentityManager "Org1MSP"; EvGetUser "alice"]) /\
  ~ (exists rest,
        calls (GetUser "alice" Stub.org1)
        = (calls (newCAClient Stub.NewCAClient (ctx Stub.org1)
                    (orgName Stub.org1) Stub.org1) ++ rest)%list) /\
  ~ (exists rest,
        calls (GetSigningIdentity "alice" Stub.org1)
        = (calls (newCAClient Stub.NewCAClient (ctx Stub.org1)
                    (orgName Stub.org1) Stub.org1) ++ rest)%list).
Proof.
  split; [reflexivity|]. split; [reflexivity|]. split; [reflexivity|].
  split; intros [rest H]; cbn in H; discriminate H.
Qed.

(** On a facade whose organization has no identity manager the two
    lookups go on with the nil manager: they panic after the lookup and
    return no error. *)
Lemma lookups_without_identity_manager :
  context.IdentityManager Stub.client (orgName Stub.org2) = (None, false) /\
  GetUser "alice" Stub.org2
  = (Panics, Stub.org2, [EvIdentityManager "Org2MSP"]) /\
  GetSigningIdentity "alice" Stub.org2
  = (Panics, Stub.org2, [EvIdentityManager "Org2MSP"]) /\
  ~ (exists v e, result (GetUser "alice" Stub.org2) = Returns (v, Some e)) /\
  ~ (exists v e,
        result (GetSigningIdentity "alice" Stub.org2) = Returns (v, Some e)).
Proof.
  repeat split; try reflexivity; intros (v & e & H); discriminate H.
Qed.

(** ** Delegation to the CA client *)

Section Delegation.
Variable NewCA :
  string -> option mspctx.IdentityManager -> handle -> handle ->
  option context.Config_ -> option mspapi.CAClient * error.

(** [Revoke] once the CA client is resolved. *)
Lemma Revoke_resolved (c : MSP) ca lc request :
  newCAClient NewCA (ctx c) (orgName c) c = (Returns (Some ca, None), c, lc) ->
  Revoke NewCA (Some request) c
  = (match mspapi.Revoke ca (mspapi_RevocationRequest request) with
     | (_, Some e) => Returns (None, Some e)
     | (Some r, None) =>
         Returns (Some {| RevokedCerts :=
                            map convertRevokedCert (mspapi.RevokedCerts r);
                          CRL := mspapi.CRL r |}, None)
     | (None, None) => Panics
     end, c,
     (lc ++ [EvRevoke (mspapi_RevocationRequest request)])%list).
Proof.
  intros Hn. unfold Revoke, bind, get. cbn. rewrite Hn. cbn.
  destruct (mspapi.Revoke ca _) as [[r|] [e|]]; cbn; try reflexivity.
  now rewrite (fold_left_snoc convertRevokedCert).
Qed.

(** A response of [Revoke] comes from a successful call of the CA. *)
Lemma Revoke_response (c : MSP) request resp err :
  result (Revoke NewCA request c) = Returns (Some resp, err) ->
  err = None /\
  exists ca req r,
    result (newCAClient NewCA (ctx c) (orgName c) c) = Returns (Some ca, None)
    /\ request = Some req
    /\ mspapi.Revoke ca (mspapi_RevocationRequest req) = (Some r, None)
    /\ resp = {| RevokedCerts :=
                   map convertRevokedCert (mspapi.RevokedCerts r);
                 CRL := mspapi.CRL r |}.
Proof.
  unfold Revoke, bind, get, result. cbn.
  destruct (newCAClient NewCA (ctx c) (orgName c) c)
    as [[[[[ca|] [e|]]|] s] lc]; cbn; try discriminate.
  - destruct request as [req|]; cbn; [|discriminate].
    destruct (mspapi.Revoke ca _) as [[r|] [e|]] eqn:Hr; cbn;
      try discriminate.
    rewrite (fold_left_snoc convertRevokedCert). cbn.
    intros H. injection H as <- <-. split; [reflexivity|].
    exists ca, req, r. auto.
  - destruct request as [req|]; cbn; discriminate.
Qed.

(** C5. With the CA client resolved: when the CA's [Revoke] succeeds
    and reports no revoked certificate, the facade's [Revoke] returns a
    response with an empty list of revoked certificates and no error;
    when the CA's [Revoke] fails, it returns a nil response and that
    error.  And whatever the facade, a response with a non-empty list
    is returned only after the CA client was resolved and its [Revoke]
    returned a response and no error, of which it is the translation. *)
Theorem Revoke_revoked_set :
  (forall (c : MSP) ca lc request,
      newCAClient NewCA (ctx c) (orgName c) c
      = (Returns (Some ca, None), c, lc) ->
      (forall crl,
          mspapi.Revoke ca (mspapi_RevocationRequest request)
          = (Some {| mspapi.RevokedCerts := []; mspapi.CRL := crl |}, None) ->
          result (Revoke NewCA (Some request) c)
          = Returns (Some {| RevokedCerts := []; CRL := crl |}, None)) /\
      (forall resp e,
          mspapi.Revoke ca (mspapi_RevocationRequest request)
          = (resp, Some e) ->
          result (Revoke NewCA (Some request) c) = Returns (None, Some e))) /\
  (forall (c : MSP) request resp err,
      result (Revoke NewCA request c) = Returns (Some resp, err) ->
      RevokedCerts resp <> [] ->
      err = None /\
      exists ca req r,
        result (newCAClient NewCA (ctx c) (orgName c) c)
        = Returns (Some ca, None)
        /\ request = Some req
        /\ mspapi.Revoke ca (mspapi_RevocationRequest req) = (Some r, None)
        /\ RevokedCerts resp = map convertRevokedCert (mspapi.RevokedCerts r)
        /\ CRL resp = mspapi.CRL r).
Proof.
  split.
  - intros c ca lc request Hn. split.
    + intros crl Hr. rewrite (Revoke_resolved c ca lc request Hn), Hr.
      reflexivity.
    + intros resp e Hr. rewrite (Revoke_resolved c ca lc request Hn), Hr.
      now destruct resp.
  - intros c request resp err H _.
    destruct (Revoke_response c request resp err H)
      as [-> (ca & req & r & Hn & -> & Hr & ->)].
    split; [reflexivity|]. exists ca, req, r. cbn. auto.
Qed.

(** C6. With the enrollment options applied without error and the CA
    client resolved, an error returned by the CA client's [Enroll] is
    the error [Enroll] returns, the same value, not wrapped; so it is
    for every enrollment ID and every secret given by [WithSecret]. *)
Theorem Enroll_error_passthrough :
  forall (c : MSP) ca lc id e,
    newCAClient NewCA (ctx c) (orgName c) c
    = (Returns (Some ca, None), c, lc) ->
    (forall opts eo l,
        applied opts {| secret := "" |} eo l ->
        mspapi.Enroll ca id (secret eo) = Some e ->
        Enroll NewCA id opts c
        = (Returns (Some e), c,
           (l ++ lc ++ [EvEnroll id (secret eo)])%list)) /\
    (forall s,
        mspapi.Enroll ca id s = Some e ->
        Enroll NewCA id [WithSecret s] c
        = (Returns (Some e), c, (lc ++ [EvEnroll id s])%list)).
Proof.
  intros c ca lc id e Hn.
  assert (G : forall opts eo l,
             applied opts {| secret := "" |} eo l ->
             mspapi.Enroll ca id (secret eo) = Some e ->
             Enroll NewCA id opts c
             = (Returns (Some e), c,
                (l ++ lc ++ [EvEnroll id (secret eo)])%list)).
  { intros opts eo l Happ He.
    rewrite (Enroll_after_options NewCA id opts eo l c Happ).
    cbv zeta. rewrite Hn. cbn. now rewrite He. }
  split; [exact G|].
  intros s He.
  exact (G [WithSecret s] {| secret := s |} [] (applied_WithSecret s _) He).
Qed.
End Delegation.

Lemma Stub_resolved :
  newCAClient Stub.NewCAClient (ctx Stub.org1) (orgName Stub.org1) Stub.org1
  = (Returns (Some Stub.ca, None), Stub.org1,
     [EvIdentityManager "Org1MSP"; EvNewCAClient "Org1MSP"]).
Proof. reflexivity. Qed.

Lemma Revoke_revoked_set_witness :
  result (Revoke Stub.NewCAClient (Some Stub.nobody) Stub.org1)
  = Returns (Some {| RevokedCerts := []; CRL := [x30] |}, None) /\
  result (Revoke Stub.NewCAClient (Some Stub.badAKI) Stub.org1)
  = Returns (None, Some Stub.unknownCert).
Proof.
  split.
  - apply (proj1 (proj1 (Revoke_revoked_set Stub.NewCAClient) Stub.org1 Stub.ca
                    _ Stub.nobody Stub_resolved) [x30]).
    reflexivity.
  - apply (proj2 (proj1 (Revoke_revoked_set Stub.NewCAClient) Stub.org1 Stub.ca
                    _ Stub.badAKI Stub_resolved) None Stub.unknownCert).
    reflexivity.
Defined.

Lemma Enroll_error_passthrough_witness :
  Enroll Stub.NewCAClient "alice" [WithSecret "s3cr3t"] Stub.org1
  = (Returns (Some Stub.rejected), Stub.org1,
     [EvIdentityManager "Org1MSP"; EvNewCAClient "Org1MSP";
      EvEnroll "alice" "s3cr3t"]).
Proof.
  apply (proj2 (Enroll_error_passthrough Stub.NewCAClient Stub.org1 Stub.ca
                  _ "alice" Stub.rejected Stub_resolved) "s3cr3t").
  reflexivity.
Defined.

(** ** The facade struct is not written by the operations *)

Section Preservation.
Context {S : Type}.

Lemma preserves_ret {A} (a : A) : preserves (@ret S A a).
Proof. intros s; reflexivity. Qed.

Lemma preserves_get : preserves (@get S).
Proof. intros s; reflexivity. Qed.

Lemma preserves_panic {A} : preserves (@panic S A).
Proof. intros s; reflexivity. Qed.

Lemma preserves_call {A} e (a : A) : preserves (@call S A e a).
Proof. intros s; reflexivity. Qed.

Lemma preserves_deref {A} (p : option A) : preserves (@deref S A p).
Proof. destruct p; intros s; reflexivity. Qed.

Lemma preserves_scoped {L A} (init : L) (m : M L A) :
  preserves (@scoped S L A init m).
Proof.
  intros s. unfold scoped, final.
  destruct (m init) as [[[a|] l] evs]; reflexivity.
Qed.

Lemma preserves_bind {A B} (m : M S A) (k : A -> M S B) :
  preserves m -> (forall a, preserves (k a)) -> preserves (bind m k).
Proof.
  intros Hm Hk s. specialize (Hm s). unfold bind, final in *.
  destruct (m s) as [[[a|] s'] l]; cbn in *; subst s'; [|reflexivity].
  specialize (Hk a s). unfold final in Hk.
  destruct (k a s) as [[o s''] l']. exact Hk.
Qed.
End Preservation.

Create HintDb preserves.
#[local] Hint Resolve preserves_ret preserves_get preserves_panic
  preserves_call preserves_deref preserves_scoped : preserves.

Ltac preserve :=
  repeat first
    [ progress auto with preserves
    | apply preserves_bind; [|intros ?]
    | match goal with
      | |- preserves (match ?x with _ => _ end) => destruct x
      | |- preserves (if ?b then _ else _) => destruct b
      end ].

Section FacadeState.
Variable NewCA :
  string -> option mspctx.IdentityManager -> handle -> handle ->
  option context.Config_ -> option mspapi.CAClient * error.

Lemma preserves_newCAClient {S} octx org :
  preserves (@newCAClient NewCA S octx org).
Proof. unfold newCAClient. preserve. Qed.

Lemma preserves_GetUser userName : preserves (GetUser userName).
Proof. unfold GetUser. preserve. Qed.

(** C8. No public operation writes the facade struct: after [Enroll],
    [Reenroll], [Register], [Revoke], [GetSigningIdentity] or
    [GetUser], whatever their arguments and whether they return or
    panic, the organization name and the context of the facade are
    what they were before the call. *)
Theorem operations_keep_facade (c : MSP) :
  (forall id opts, final (Enroll NewCA id opts c) = c) /\
  (forall id, final (Reenroll NewCA id c) = c) /\
  (forall request, final (Register NewCA request c) = c) /\
  (forall request, final (Revoke NewCA request c) = c) /\
  (forall userName, final (GetSigningIdentity userName c) = c) /\
  (forall userName, final (GetUser userName c) = c).
Proof.
  pose proof (@preserves_newCAClient MSP) as Hn.
  pose proof preserves_GetUser as Hu.
  repeat split; intros.
  - revert c. change (preserves (Enroll NewCA id opts)).
    unfold Enroll. preserve.
  - revert c. change (preserves (Reenroll NewCA id)).
    unfold Reenroll. preserve.
  - revert c. change (preserves (Register NewCA request)).
    unfold Register. preserve.
  - revert c. change (preserves (Revoke NewCA request)).
    unfold Revoke. preserve.
  - revert c. change (preserves (GetSigningIdentity userName)).
    unfold GetSigningIdentity. preserve.
  - apply Hu.
Qed.
End FacadeState.

(** ** The enrollment ID *)

Section EnrollmentID.
Variable NewCA :
  string -> option mspctx.IdentityManager -> handle -> handle ->
  option context.Config_ -> option mspapi.CAClient * error.

(** Either [Enroll] hands every enrollment ID to the CA client, or
    what it does is the same for every enrollment ID. *)
Lemma Enroll_id_forwarded (c : MSP) opts :
  (exists ca s l, forall id,
      Enroll NewCA id opts c
      = (Returns (mspapi.Enroll ca id s), c, (l ++ [EvEnroll id s])%list))
  \/ (exists r, forall id, Enroll NewCA id opts c = r).
Proof.
  unfold Enroll, EnrollmentOption.
  match goal with
  | |- context [scoped ?init (for_range opts ?body)] =>
      destruct (for_range opts body init) as [[[[r|]|] eo] l] eqn:Hloop
  end;
    unfold EnrollmentOption in Hloop.
  - right. eexists. intros id.
    unfold bind at 1. unfold scoped. rewrite Hloop. reflexivity.
  - apply for_range_None in Hloop.
    pose proof (fun id => Enroll_after_options NewCA id opts eo l c Hloop)
      as HE.
    unfold Enroll, EnrollmentOption in HE. cbv zeta in HE.
    pose proof (newCAClient_state NewCA (ctx c) (orgName c) c c) as Hst.
    destruct (newCAClient NewCA (ctx c) (orgName c) c) as [[o s] lc].
    unfold result, calls in Hst, HE. cbn in Hst, HE. injection Hst as ->.
    destruct o as [[[ca|] [e|]]|];
      try (right; eexists; intros id; rewrite HE; reflexivity).
    left. exists ca, (secret eo), (l ++ lc)%list. intros id.
    rewrite HE. now rewrite <- app_assoc.
  - right. eexists. intros id.
    unfold bind at 1. unfold scoped. rewrite Hloop. reflexivity.
Qed.

Lemma Reenroll_id_forwarded (c : MSP) :
  (exists ca l, forall id,
      Reenroll NewCA id c
      = (Returns (mspapi.Reenroll ca id), c, (l ++ [EvReenroll id])%list))
  \/ (exists r, forall id, Reenroll NewCA id c = r).
Proof.
  unfold Reenroll, bind, get. cbn.
  pose proof (newCAClient_state NewCA (ctx c) (orgName c) c c) as Hst.
  unfold result, calls in Hst.
  destruct (newCAClient NewCA (ctx c) (orgName c) c) as [[o s] lc].
  cbn in Hst. injection Hst as ->.
  destruct o as [[[ca|] [e|]]|]; cbn;
    try (right; eexists; intros id; reflexivity).
  left. exists ca, lc. intros id. reflexivity.
Qed.

(** C9. Neither [Enroll] nor [Reenroll] checks the enrollment ID.
    With the options applied without error and the CA client
    resolved, every ID, the empty string among them, is passed
    unchanged to the CA client, whose answer is what the facade
    returns.  And on every facade, with any options, either every ID
    is so forwarded or the facade does the same for all IDs: it never
    rejects an ID for being empty. *)
Theorem enrollment_id_not_validated :
  (forall (c : MSP) ca lc opts eo l id,
      newCAClient NewCA (ctx c) (orgName c) c
      = (Returns (Some ca, None), c, lc) ->
      applied opts {| secret := "" |} eo l ->
      Enroll NewCA id opts c
      = (Returns (mspapi.Enroll ca id (secret eo)), c,
         (l ++ lc ++ [EvEnroll id (secret eo)])%list) /\
      Enroll NewCA "" opts c
      = (Returns (mspapi.Enroll ca "" (secret eo)), c,
         (l ++ lc ++ [EvEnroll "" (secret eo)])%list) /\
      Reenroll NewCA id c
      = (Returns (mspapi.Reenroll ca id), c, (lc ++ [EvReenroll id])%list) /\
      Reenroll NewCA "" c
      = (Returns (mspapi.Reenroll ca ""), c, (lc ++ [EvReenroll ""])%list)) /\
  (forall (c : MSP) opts,
      (exists ca s l, forall id,
          Enroll NewCA id opts c
          = (Returns (mspapi.Enroll ca id s), c, (l ++ [EvEnroll id s])%list))
      \/ (exists r, forall id, Enroll NewCA id opts c = r)) /\
  (forall (c : MSP),
      (exists ca l, forall id,
          Reenroll NewCA id c
          = (Returns (mspapi.Reenroll ca id), c,
             (l ++ [EvReenroll id])%list))
      \/ (exists r, forall id, Reenroll NewCA id c = r)).
Proof.
  split; [|split].
  - intros c ca lc opts eo l id Hn Happ.
    assert (E : forall i,
               Enroll NewCA i opts c
               = (Returns (mspapi.Enroll ca i (secret eo)), c,
                  (l ++ lc ++ [EvEnroll i (secret eo)])%list)).
    { intros i. rewrite (Enroll_after_options NewCA i opts eo l c Happ).
      cbv zeta. rewrite Hn. reflexivity. }
    assert (R : forall i,
               Reenroll NewCA i c
               = (Returns (mspapi.Reenroll ca i), c,
                  (lc ++ [EvReenroll i])%list)).
    { intros i. unfold Reenroll, bind, get. cbn. rewrite Hn. reflexivity. }
    auto.
  - apply Enroll_id_forwarded.
  - apply Reenroll_id_forwarded.
Qed.
End EnrollmentID.

Lemma enrollment_id_not_validated_witness :
  Enroll Stub.NewCAClient "" [WithSecret "enrollmentSecret"] Stub.org1
  = (Returns None, Stub.org1,
     [EvIdentityManager "Org1MSP"; EvNewCAClient "Org1MSP";
      EvEnroll "" "enrollmentSecret"]) /\
  Reenroll Stub.NewCAClient "" Stub.org1
  = (Returns None, Stub.org1,
     [EvIdentityManager "Org1MSP"; EvNewCAClient "Org1MSP"; EvReenroll ""]).
Proof.
  pose proof (proj1 (enrollment_id_not_validated Stub.NewCAClient)
                Stub.org1 Stub.ca _ [WithSecret "enrollmentSecret"] _ _ ""
                Stub_resolved (applied_WithSecret "enrollmentSecret" _))
    as (E & _ & R & _).
  split; [exact E | exact R].
Defined.

(** ** Registration *)

Section Registration.
Variable NewCA :
  string -> option mspctx.IdentityManager -> handle -> handle ->
  option context.Config_ -> option mspapi.CAClient * error.

(** The request [Register] hands to the CA client. *)
Lemma Register_resolved (c : MSP) ca lc request :
  newCAClient NewCA (ctx c) (orgName c) c = (Returns (Some ca, None), c, lc) ->
  let r := {| mspapi.Name := Name request;
              mspapi.Type_ := Type_ request;
              mspapi.MaxEnrollments := MaxEnrollments request;
              mspapi.Affiliation := Affiliation request;
              mspapi.Attributes := [];
              mspapi.CAName := CAName request;
              mspapi.Secret := Secret request |} in
  Register NewCA (Some request) c
  = (Returns (mspapi.Register ca r), c, (lc ++ [EvRegister r])%list).
Proof.
  intros Hn. unfold Register, bind, get. cbn. rewrite Hn. reflexivity.
Qed.
End Registration.

(** C3, where the code departs from it: for a request with one
    attribute, the request [Register] hands to the CA client has no
    attribute at all; the six other fields are copied. *)
Theorem Register_drops_attributes :
  length (Attributes Stub.aliceRequest) = 1 /\
  exists r,
    calls (Register Stub.NewCAClient (Some Stub.aliceRequest) Stub.org1)
    = [EvIdentityManager "Org1MSP"; EvNewCAClient "Org1MSP"; EvRegister r]
    /\ mspapi.Attributes r = []
    /\ r = {| mspapi.Name := "alice";
              mspapi.Type_ := "client";
              mspapi.MaxEnrollments := 1;
              mspapi.Affiliation := "org1.department1";
              mspapi.Attributes := [];
              mspapi.CAName := "ca.org1";
              mspapi.Secret := "" |}.
Proof.
  split; [reflexivity|]. eexists. split; [reflexivity|]. split; reflexivity.
Qed.

(** ** Construction *)

(** [New] once the provider has answered and the options have been
    applied without error. *)
Lemma New_after_options cx opts msp l :
  applied opts {| orgName := ""; ctx := cx |} msp l ->
  New (cx, None) opts tt
  = (if String.eqb (orgName msp) "" then
       match cx with
       | Some c =>
           match context.Config c with
           | Some config =>
               (match context.Client_ config with
                | (_, Some e) =>
                    Returns (None, Some (withMessage e "failed to create MSP"))
                | (Some clientConfig, None) =>
                    Returns
                      (Some (set_orgName msp
                               (context.Organization clientConfig)), None)
                | (None, None) => Panics
                end, tt, (EvClientProvider :: l ++ [EvConfigClient])%list)
           | None => (Panics, tt, EvClientProvider :: l)
           end
       | None => (Panics, tt, EvClientProvider :: l)
       end
     else (Returns (Some msp, None), tt, EvClientProvider :: l)).
Proof.
  intros Happ.
  apply (for_range_applied
           (fun err => (@None MSP, errors.WithMessage err "failed to create MSP")))
    in Happ.
  cbv zeta in Happ.
  unfold New, ClientOption. unfold bind at 1. cbn.
  unfold bind at 1. unfold scoped. rewrite Happ. cbn.
  destruct (String.eqb (orgName msp) ""); cbn; [|now rewrite app_nil_r].
  destruct cx as [c|]; cbn; [|now rewrite app_nil_r].
  destruct (context.Config c) as [config|]; cbn; [|now rewrite app_nil_r].
  destruct (context.Client_ config) as [[clientConfig|] [e|]]; cbn;
    now rewrite ?app_nil_r.
Qed.

(** C7. Construction fails fast.  When the context provider returns an
    error, [New] returns a nil facade and that error wrapped with "failed
    to create MSP", and applies no option.  When the options before some
    option are applied without error and that option returns an error,
    [New] returns a nil facade and that error wrapped the same way; the
    result and the calls made are those of the options up to the failing
    one, whatever options follow it: none of them is applied. *)
Theorem New_fails_fast :
  (forall cx e opts,
      New (cx, Some e) opts tt
      = (Returns (None, Some (withMessage e "failed to create MSP")), tt,
         [EvClientProvider])) /\
  (forall cx pre (bad : ClientOption) post msp1 msp2 l1 l2 e,
      applied pre {| orgName := ""; ctx := cx |} msp1 l1 ->
      bad msp1 = (Returns (Some e), msp2, l2) ->
      New (cx, None) (pre ++ bad :: post) tt
      = (Returns (None, Some (withMessage e "failed to create MSP")), tt,
         (EvClientProvider :: l1 ++ l2)%list)).
Proof.
  split.
  - reflexivity.
  - intros cx pre bad post msp1 msp2 l1 l2 e Hpre Hbad.
    pose proof (for_range_fails
                  (fun err =>
                     (@None MSP, errors.WithMessage err "failed to create MSP"))
                  pre bad post _ _ _ _ _ _ Hpre Hbad) as Hloop.
    cbv zeta in Hloop.
    unfold New, ClientOption in *. unfold bind at 1. cbn.
    unfold bind at 1. unfold scoped. rewrite Hloop. cbn.
    now rewrite app_nil_r.
Qed.

Lemma New_fails_fast_witness :
  New (Some Stub.client, None) [WithOrg "Org1MSP"; Stub.failing; Stub.noisy] tt
  = (Returns (None, Some (withMessage (errorString "bad option")
                            "failed to create MSP")), tt,
     [EvClientProvider]).
Proof.
  apply (proj2 New_fails_fast (Some Stub.client) [WithOrg "Org1MSP"]
           Stub.failing [Stub.noisy] Stub.org1 Stub.org1 [] []
           (errorString "bad option")
           (applied_WithOrg "Org1MSP" {| orgName := ""; ctx := Some Stub.client |})).
  reflexivity.
Defined.

(** C4. When the last option is [WithOrg name] with [name] not empty,
    and the options before it are applied without error, the facade's
    organization name is [name] and [New] makes no call of its own
    besides the one to the provider: the client configuration is not
    consulted.  When the options leave the organization name empty (so
    when there is no option at all) and the configuration lookup
    succeeds, the organization name is the [Organization] of the
    session's client configuration. *)
Theorem New_organization :
  (forall cx pre msp l name,
      name <> "" ->
      applied pre {| orgName := ""; ctx := cx |} msp l ->
      New (cx, None) (pre ++ [WithOrg name]) tt
      = (Returns (Some (set_orgName msp name), None), tt,
         EvClientProvider :: l)
      /\ (~ In EvConfigClient l ->
          ~ In EvConfigClient
              (calls (New (cx, None) (pre ++ [WithOrg name]) tt)))) /\
  (forall cx config clientConfig opts msp l,
      applied opts {| orgName := ""; ctx := Some cx |} msp l ->
      orgName msp = "" ->
      context.Config cx = Some config ->
      context.Client_ config = (Some clientConfig, None) ->
      New (Some cx, None) opts tt
      = (Returns
           (Some (set_orgName msp (context.Organization clientConfig)), None),
         tt, (EvClientProvider :: l ++ [EvConfigClient])%list)).
Proof.
  split.
  - intros cx pre msp l name Hname Hpre.
    assert (Happ : applied (pre ++ [WithOrg name])
                     {| orgName := ""; ctx := cx |} (set_orgName msp name)
                     (l ++ [])%list).
    { eapply applied_snoc; [exact Hpre | reflexivity]. }
    rewrite app_nil_r in Happ.
    rewrite (New_after_options _ _ _ _ Happ). cbn.
    apply String.eqb_neq in Hname. rewrite Hname.
    split; [reflexivity|].
    intros Hl [H|H]; [discriminate | auto].
  - intros cx config clientConfig opts msp l Happ Horg Hcfg Hcc.
    rewrite (New_after_options _ _ _ _ Happ).
    rewrite Horg, Hcfg, Hcc. reflexivity.
Qed.

Lemma New_organization_witness :
  (New (Some Stub.client, None) [WithOrg "Org2MSP"] tt
   = (Returns (Some Stub.org2, None), tt, [EvClientProvider])
   /\ (~ In EvConfigClient [] ->
       ~ In EvConfigClient
           (calls (New (Some Stub.client, None) [WithOrg "Org2MSP"] tt)))) /\
  New (Some Stub.client, None) [] tt
  = (Returns (Some Stub.org1, None), tt, [EvClientProvider; EvConfigClient]).
Proof.
  split.
  - apply (proj1 New_organization (Some Stub.client) []
             {| orgName := ""; ctx := Some Stub.client |} [] "Org2MSP").
    + discriminate.
    + constructor.
  - apply (proj2 New_organization Stub.client Stub.config
             {| context.Organization := "Org1MSP" |} []
             {| orgName := ""; ctx := Some Stub.client |} []).
    + constructor.
    + reflexivity.
    + reflexivity.
    + reflexivity.
Defined.

(** C10. [WithOrg ""] is the same as no option: for every provider,
    [New] with the single option [WithOrg ""] returns what [New] without
    option returns, after the same calls; and when the configuration
    lookup succeeds the organization name it yields is the
    [Organization] of the session's client configuration, read by a call
    to the client configuration. *)
Theorem WithOrg_empty_is_default :
  (forall provider, New provider [WithOrg ""] tt = New provider [] tt) /\
  (forall cx config clientConfig,
      context.Config cx = Some config ->
      context.Client_ config = (Some clientConfig, None) ->
      New (Some cx, None) [WithOrg ""] tt
      = (Returns (Some {| orgName := context.Organization clientConfig;
                          ctx := Some cx |}, None),
         tt, [EvClientProvider; EvConfigClient])).
Proof.
  split.
  - intros [cx [e|]]; reflexivity.
  - intros cx config clientConfig Hcfg Hcc.
    rewrite (New_after_options _ _ _ _ (applied_WithOrg "" _)). cbn.
    rewrite Hcfg, Hcc. reflexivity.
Qed.

Lemma WithOrg_empty_is_default_witness :
  New (Some Stub.client, None) [WithOrg ""] tt
  = (Returns (Some Stub.org1, None), tt, [EvClientProvider; EvConfigClient]).
Proof.
  apply (proj2 WithOrg_empty_is_default Stub.client Stub.config
           {| context.Organization := "Org1MSP" |}); reflexivity.
Defined.


(** ** Further properties of the operations *)

Section Failures.
Variable NewCA :
  string -> option mspctx.IdentityManager -> handle -> handle ->
  option context.Config_ -> option mspapi.CAClient * error.

Lemma newCAClient_creation_failed {S} cx org im ca0 e (s : S) :
  context.IdentityManager cx org = (im, true) ->
  NewCA org im (context.UserStore cx) (context.CryptoSuite cx)
    (context.Config cx) = (ca0, Some e) ->
  newCAClient NewCA (Some cx) org s
  = (Returns (None, Some (withMessage e "failed to create CA MSP")), s,
     [EvIdentityManager org; EvNewCAClient org]).
Proof.
  intros Him Hca. unfold newCAClient, bind, deref, call, ret. cbn.
  rewrite Him. cbn. rewrite Hca. reflexivity.
Qed.

(** X1. When the identity manager of the organization is registered but
    [msp.NewCAClient] returns an error, [Enroll] (its options applied),
    [Reenroll], [Register] and [Revoke] return that error wrapped with
    "failed to create CA MSP" ([Register] with an empty secret, [Revoke]
    with a nil response); whatever client came with the error is
    dropped and no CA method is called. *)
Theorem CA_creation_failure :
  forall (c : MSP) cx im ca0 e,
    ctx c = Some cx ->
    context.IdentityManager cx (orgName c) = (im, true) ->
    NewCA (orgName c) im (context.UserStore cx) (context.CryptoSuite cx)
      (context.Config cx) = (ca0, Some e) ->
    (forall id opts eo l,
        applied opts {| secret := "" |} eo l ->
        Enroll NewCA id opts c
        = (Returns (Some (withMessage e "failed to create CA MSP")), c,
           (l ++ [EvIdentityManager (orgName c);
                  EvNewCAClient (orgName c)])%list)) /\
    (forall id,
        Reenroll NewCA id c
        = (Returns (Some (withMessage e "failed to create CA MSP")), c,
           [EvIdentityManager (orgName c); EvNewCAClient (orgName c)])) /\
    (forall request,
        Register NewCA request c
        = (Returns ("", Some (withMessage e "failed to create CA MSP")), c,
           [EvIdentityManager (orgName c); EvNewCAClient (orgName c)])) /\
    (forall request,
        Revoke NewCA request c
        = (Returns (None, Some (withMessage e "failed to create CA MSP")), c,
           [EvIdentityManager (orgName c); EvNewCAClient (orgName c)])).
Proof.
  intros c cx im ca0 e Hctx Him Hca.
  pose proof (newCAClient_creation_failed cx (orgName c) im ca0 e c Him Hca)
    as Hn.
  rewrite <- Hctx in Hn.
  split; [|split; [|split]].
  - intros id opts eo l Happ.
    rewrite (Enroll_after_options NewCA id opts eo l c Happ).
    cbv zeta. rewrite Hn. reflexivity.
  - intros id. unfold Reenroll, bind, get. cbn. rewrite Hn. reflexivity.
  - intros request. unfold Register, bind, get. cbn. rewrite Hn. reflexivity.
  - intros request. unfold Revoke, bind, get. cbn. rewrite Hn. reflexivity.
Qed.

(** X3. [Enroll] stops at the first enrollment option that returns an
    error: it returns that error wrapped with "failed to enroll", applies
    none of the options that follow, and neither resolves the CA client
    nor calls it; the calls are those of the options up to the failing
    one. *)
Theorem Enroll_option_failure :
  forall (c : MSP) id pre (bad : M enrollmentOptions error) post
         eo1 eo2 l1 l2 e,
    applied pre {| secret := "" |} eo1 l1 ->
    bad eo1 = (Returns (Some e), eo2, l2) ->
    Enroll NewCA id (pre ++ bad :: post) c
    = (Returns (Some (withMessage e "failed to enroll")), c, (l1 ++ l2)%list).
Proof.
  intros c id pre bad post eo1 eo2 l1 l2 e Hpre Hbad.
  pose proof (for_range_fails
                (fun err => errors.WithMessage err "failed to enroll")
                pre bad post _ _ _ _ _ _ Hpre Hbad) as Hloop.
  cbv zeta in Hloop.
  unfold Enroll, EnrollmentOption in *. unfold bind at 1. unfold scoped.
  rewrite Hloop. cbn. now rewrite app_nil_r.
Qed.

(** X4. The secret [Enroll] hands to the CA client, once the client is
    resolved: the empty string when there is no option, and the secret of
    the last [WithSecret] whatever the options before it set. *)
Theorem Enroll_secret :
  forall (c : MSP) ca lc id,
    newCAClient NewCA (ctx c) (orgName c) c = (Returns (Some ca, None), c, lc) ->
    Enroll NewCA id [] c
    = (Returns (mspapi.Enroll ca id ""), c, (lc ++ [EvEnroll id ""])%list) /\
    (forall pre eo l s,
        applied pre {| secret := "" |} eo l ->
        Enroll NewCA id (pre ++ [WithSecret s]) c
        = (Returns (mspapi.Enroll ca id s), c,
           (l ++ lc ++ [EvEnroll id s])%list)).
Proof.
  intros c ca lc id Hn. split.
  - pose proof (Enroll_after_options NewCA id [] _ [] c (applied_nil _)) as H.
    cbv zeta in H. rewrite Hn in H. exact H.
  - intros pre eo l s Hpre.
    assert (Happ : applied (pre ++ [WithSecret s]) {| secret := "" |}
                     {| secret := s |} (l ++ [])%list).
    { eapply applied_snoc; [exact Hpre | reflexivity]. }
    rewrite app_nil_r in Happ.
    pose proof (Enroll_after_options NewCA id _ _ _ c Happ) as H.
    cbv zeta in H. rewrite Hn in H. exact H.
Qed.
End Failures.

Lemma CA_creation_failure_witness :
  Reenroll Fixture.failingNewCAClient "alice" Stub.org1
  = (Returns (Some (withMessage Fixture.noCAConfig "failed to create CA MSP")),
     Stub.org1, [EvIdentityManager "Org1MSP"; EvNewCAClient "Org1MSP"])
  /\ Register Fixture.failingNewCAClient (Some Stub.aliceRequest) Stub.org1
     = (Returns ("", Some (withMessage Fixture.noCAConfig
                             "failed to create CA MSP")),
        Stub.org1, [EvIdentityManager "Org1MSP"; EvNewCAClient "Org1MSP"]).
Proof.
  pose proof (CA_creation_failure Fixture.failingNewCAClient Stub.org1
                Stub.client (Some Stub.identityManager) None
                Fixture.noCAConfig eq_refl eq_refl eq_refl)
    as (_ & R & G & _).
  split; [exact (R "alice") | exact (G (Some Stub.aliceRequest))].
Defined.

Lemma Enroll_option_failure_witness :
  Enroll Stub.NewCAClient "alice"
    [WithSecret "s3cr3t"; Fixture.badOption; WithSecret "other"] Stub.org1
  = (Returns (Some (withMessage (errorString "bad enrollment option")
                      "failed to enroll")), Stub.org1, []).
Proof.
  apply (Enroll_option_failure Stub.NewCAClient Stub.org1 "alice"
           [WithSecret "s3cr3t"] Fixture.badOption [WithSecret "other"]
           {| secret := "s3cr3t" |} {| secret := "s3cr3t" |} [] []
           (errorString "bad enrollment option")
           (applied_WithSecret "s3cr3t" {| secret := "" |})).
  reflexivity.
Defined.

Lemma Enroll_secret_witness :
  Enroll Stub.NewCAClient "alice" [] Stub.org1
  = (Returns (Some Stub.rejected), Stub.org1,
     [EvIdentityManager "Org1MSP"; EvNewCAClient "Org1MSP";
      EvEnroll "alice" ""]) /\
  Enroll Stub.NewCAClient "alice"
    [WithSecret "s3cr3t"; WithSecret "enrollmentSecret"] Stub.org1
  = (Returns None, Stub.org1,
     [EvIdentityManager "Org1MSP"; EvNewCAClient "Org1MSP";
      EvEnroll "alice" "enrollmentSecret"]).
Proof.
  pose proof (Enroll_secret Stub.NewCAClient Stub.org1 Stub.ca _ "alice"
                Stub_resolved) as [E0 E1].
  split; [exact E0|].
  exact (E1 [WithSecret "s3cr3t"] {| secret := "s3cr3t" |} [] "enrollmentSecret"
           (applied_WithSecret "s3cr3t" {| secret := "" |})).
Defined.

(** X2. When the options leave the organization name empty and the
    lookup of the client configuration returns an error, [New] returns a
    nil facade and that error wrapped with "failed to create MSP"; the
    configuration that came with the error is not read. *)
Theorem New_config_lookup_failure :
  forall cx config clientConfig e opts msp l,
    applied opts {| orgName := ""; ctx := Some cx |} msp l ->
    orgName msp = "" ->
    context.Config cx = Some config ->
    context.Client_ config = (clientConfig, Some e) ->
    New (Some cx, None) opts tt
    = (Returns (None, Some (withMessage e "failed to create MSP")), tt,
       (EvClientProvider :: l ++ [EvConfigClient])%list).
Proof.
  intros cx config clientConfig e opts msp l Happ Horg Hcfg Hcc.
  rewrite (New_after_options _ _ _ _ Happ).
  rewrite Horg, Hcfg, Hcc. cbn. now destruct clientConfig.
Qed.

Lemma New_config_lookup_failure_witness :
  New (Some Fixture.brokenClient, None) [] tt
  = (Returns (None, Some (withMessage Fixture.noClientConfig
                            "failed to create MSP")), tt,
     [EvClientProvider; EvConfigClient]).
Proof.
  apply (New_config_lookup_failure Fixture.brokenClient
           {| context.Client_ := (None, Some Fixture.noClientConfig) |}
           None Fixture.noClientConfig []
           {| orgName := ""; ctx := Some Fixture.brokenClient |} []).
  - constructor.
  - reflexivity.
  - reflexivity.
  - reflexivity.
Defined.

Section Translation.
Variable NewCA :
  string -> option mspctx.IdentityManager -> handle -> handle ->
  option context.Config_ -> option mspapi.CAClient * error.

(** X5. When the CA client is resolved and its [Revoke] returns a
    response and no error, the facade's [Revoke] sends the CA the
    caller's five request fields unchanged and returns a response with
    as many revoked certificates as the CA reported, in the same order,
    each with the CA's serial and AKI, and with the CA's CRL bytes. *)
Theorem Revoke_translation :
  forall (c : MSP) ca lc request r,
    newCAClient NewCA (ctx c) (orgName c) c = (Returns (Some ca, None), c, lc) ->
    mspapi.Revoke ca (mspapi_RevocationRequest request) = (Some r, None) ->
    exists req resp,
      Revoke NewCA (Some request) c
      = (Returns (Some resp, None), c, (lc ++ [EvRevoke req])%list)
      /\ (mspapi.Revoke_Name req = Revoke_Name request
          /\ mspapi.Revoke_Serial req = Revoke_Serial request
          /\ mspapi.Revoke_AKI req = Revoke_AKI request
          /\ mspapi.Revoke_Reason req = Revoke_Reason request
          /\ mspapi.Revoke_CAName req = Revoke_CAName request)
      /\ length (RevokedCerts resp) = length (mspapi.RevokedCerts r)
      /\ (forall i rc,
             nth_error (mspapi.RevokedCerts r) i = Some rc ->
             nth_error (RevokedCerts resp) i
             = Some {| Serial := mspapi.Serial rc; AKI := mspapi.AKI rc |})
      /\ CRL resp = mspapi.CRL r.
Proof.
  intros c ca lc request r Hn Hr.
  exists (mspapi_RevocationRequest request).
  exists {| RevokedCerts := map convertRevokedCert (mspapi.RevokedCerts r);
            CRL := mspapi.CRL r |}.
  split; [|split; [|split; [|split]]].
  - rewrite (Revoke_resolved NewCA c ca lc request Hn), Hr. reflexivity.
  - cbn. auto.
  - cbn. apply length_map.
  - intros i rc Hi. cbn. rewrite nth_error_map, Hi. reflexivity.
  - reflexivity.
Qed.
End Translation.

Lemma Revoke_translation_witness :
  exists req resp,
    Revoke Fixture.revokingNewCAClient (Some Stub.badAKI) Stub.org1
    = (Returns (Some resp, None), Stub.org1,
       ([EvIdentityManager "Org1MSP"; EvNewCAClient "Org1MSP"]
          ++ [EvRevoke req])%list)
    /\ (mspapi.Revoke_Name req = ""
        /\ mspapi.Revoke_Serial req = "1a2b"
        /\ mspapi.Revoke_AKI req = "ffff"
        /\ mspapi.Revoke_Reason req = ""
        /\ mspapi.Revoke_CAName req = "ca.org1")
    /\ length (RevokedCerts resp) = 2
    /\ (forall i rc,
           nth_error Fixture.revoked i = Some rc ->
           nth_error (RevokedCerts resp) i
           = Some {| Serial := mspapi.Serial rc; AKI := mspapi.AKI rc |})
    /\ CRL resp = [x30; x31].
Proof.
  apply (Revoke_translation Fixture.revokingNewCAClient Stub.org1
           Fixture.revokingCA
           [EvIdentityManager "Org1MSP"; EvNewCAClient "Org1MSP"] Stub.badAKI
           {| mspapi.RevokedCerts := Fixture.revoked;
              mspapi.CRL := [x30; x31] |});
    reflexivity.
Defined.

(** ** Further properties of the lookups *)

(** X6. [GetSigningIdentity] is [GetUser] followed by a projection: it
    makes the calls [GetUser] makes; an error of [GetUser] is returned
    unchanged with a nil identity (its own test for the collaborator's
    sentinel never fires); a user is turned into the identity made of
    its MSP id, private key and enrollment certificate; and a nil user
    returned without error makes it panic. *)
Theorem GetSigningIdentity_after_GetUser :
  forall (c : MSP) userName,
    GetSigningIdentity userName c
    = match GetUser userName c with
      | (Returns (_, Some e), s, l) => (Returns (None, Some e), s, l)
      | (Returns (Some user, None), s, l) =>
          (Returns (Some (signingIdentityOf user), None), s, l)
      | (Returns (None, None), s, l) => (Panics, s, l)
      | (Panics, s, l) => (Panics, s, l)
      end.
Proof.
  intros c userName.
  pose proof (GetUser_never_sentinel userName c) as Hns.
  unfold GetSigningIdentity, bind.
  destruct (GetUser userName c) as [[[[user [e|]]|] s] l]; cbn in *.
  - destruct (errorValue_eqb e mspctx.ErrUserNotFound) eqn:He; cbn.
    + apply errorValue_eqb_spec in He. subst e.
      exfalso. exact (Hns user eq_refl).
    + rewrite app_nil_r. now destruct user.
  - destruct user as [user|]; cbn; now rewrite app_nil_r.
  - reflexivity.
Qed.

(** X7. With an identity manager returned for the facade's organization
    (whatever the flag that came with it), [GetUser] returns the
    manager's user when the manager returns no error, and for every
    error other than the not-found sentinel returns that error
    unchanged with a nil user, dropping the user that came with it. *)
Theorem GetUser_outcomes :
  forall (c : MSP) cx im ok userName,
    ctx c = Some cx ->
    context.IdentityManager cx (orgName c) = (Some im, ok) ->
    (forall user,
        mspctx.GetUser im userName = (user, None) ->
        GetUser userName c
        = (Returns (user, None), c,
           [EvIdentityManager (orgName c); EvGetUser userName])) /\
    (forall user e,
        mspctx.GetUser im userName = (user, Some e) ->
        e <> mspctx.ErrUserNotFound ->
        GetUser userName c
        = (Returns (None, Some e), c,
           [EvIdentityManager (orgName c); EvGetUser userName])).
Proof.
  intros c cx im ok userName Hctx Him. split.
  - intros user Hget. unfold GetUser, bind, get, deref, call, ret.
    rewrite Hctx; cbn. rewrite Him; cbn. rewrite Hget. reflexivity.
  - intros user e Hget Hne. unfold GetUser, bind, get, deref, call, ret.
    rewrite Hctx; cbn. rewrite Him; cbn. rewrite Hget; cbn.
    destruct (errorValue_eqb e mspctx.ErrUserNotFound) eqn:He.
    + apply errorValue_eqb_spec in He. contradiction.
    + reflexivity.
Qed.

Lemma GetUser_outcomes_witness :
  GetUser "alice" Stub.org1
  = (Returns (Some Stub.alice, None), Stub.org1,
     [EvIdentityManager "Org1MSP"; EvGetUser "alice"]) /\
  GetUser "alice" Fixture.broken
  = (Returns (None, Some Fixture.unreadable), Fixture.broken,
     [EvIdentityManager "Org1MSP"; EvGetUser "alice"]).
Proof.
  split.
  - apply (proj1 (GetUser_outcomes Stub.org1 Stub.client Stub.identityManager
                    true "alice" eq_refl eq_refl) (Some Stub.alice)).
    reflexivity.
  - apply (proj2 (GetUser_outcomes Fixture.broken Fixture.brokenClient
                    Fixture.brokenManager false "alice" eq_refl eq_refl)
             (Some Stub.alice) Fixture.unreadable).
    + reflexivity.
    + discriminate.
Defined.

(** ** Calls, nil arguments and nil contexts *)

Section Calls.
Variable NewCA :
  string -> option mspctx.IdentityManager -> handle -> handle ->
  option context.Config_ -> option mspapi.CAClient * error.

(** The four ways [newCAClient] can end. *)
Lemma newCAClient_outcomes {S} octx org (s : S) :
  (exists ca,
      newCAClient NewCA octx org s
      = (Returns (ca, None), s, [EvIdentityManager org; EvNewCAClient org]))
  \/ (exists e,
         newCAClient NewCA octx org s
         = (Returns (None, Some e), s, [EvIdentityManager org]))
  \/ (exists e,
         newCAClient NewCA octx org s
         = (Returns (None, Some e), s,
            [EvIdentityManager org; EvNewCAClient org]))
  \/ newCAClient NewCA octx org s = (Panics, s, []).
Proof.
  unfold newCAClient, bind, deref, call, ret, panic.
  destruct octx as [cx|]; cbn; [|auto].
  destruct (context.IdentityManager cx org) as [im [|]]; cbn.
  - destruct (NewCA org im _ _ _) as [ca [e|]]; cbn; eauto.
  - right; left. eexists. reflexivity.
Qed.

Ltac prefix_of_three :=
  first [ exists 0%nat; reflexivity | exists 1%nat; reflexivity
        | exists 2%nat; reflexivity | exists 3%nat; reflexivity ].

(** X8. An operation calls the CA client at most once, and only after
    the identity-manager lookup and [msp.NewCAClient], in that order:
    the calls of [Reenroll], [Register] and [Revoke], and those of
    [Enroll] after the calls of its options, are a prefix of the lookup,
    the creation and the one CA method of the operation.  Nothing is
    retried and no other CA method is called. *)
Theorem one_CA_call_after_resolution :
  forall (c : MSP),
    (forall id opts eo l,
        applied opts {| secret := "" |} eo l ->
        exists n,
          calls (Enroll NewCA id opts c)
          = (l ++ firstn n [EvIdentityManager (orgName c);
                            EvNewCAClient (orgName c);
                            EvEnroll id (secret eo)])%list) /\
    (forall id, exists n,
        calls (Reenroll NewCA id c)
        = firstn n [EvIdentityManager (orgName c);
                    EvNewCAClient (orgName c);
                    EvReenroll id]) /\
    (forall request, exists n r,
        calls (Register NewCA request c)
        = firstn n [EvIdentityManager (orgName c);
                    EvNewCAClient (orgName c);
                    EvRegister r]) /\
    (forall request, exists n req,
        calls (Revoke NewCA request c)
        = firstn n [EvIdentityManager (orgName c);
                    EvNewCAClient (orgName c);
                    EvRevoke req]).
Proof.
  intros c.
  pose proof (newCAClient_outcomes (ctx c) (orgName c) c) as Hn.
  split; [|split; [|split]].
  - intros id opts eo l Happ.
    rewrite (Enroll_after_options NewCA id opts eo l c Happ). cbv zeta.
    destruct Hn as [[ca Hn] | [[e Hn] | [[e Hn] | Hn]]]; rewrite Hn; cbn.
    + destruct ca as [ca|]; cbn; [exists 3%nat | exists 2%nat]; reflexivity.
    + exists 1%nat. reflexivity.
    + exists 2%nat. reflexivity.
    + exists 0%nat. reflexivity.
  - intros id. unfold Reenroll, bind, get, calls. cbn.
    destruct Hn as [[ca Hn] | [[e Hn] | [[e Hn] | Hn]]]; rewrite Hn; cbn;
      try prefix_of_three.
    destruct ca as [ca|]; cbn; prefix_of_three.
  - intros request.
    set (r0 := {| mspapi.Name := ""; mspapi.Type_ := "";
                  mspapi.MaxEnrollments := 0%Z; mspapi.Affiliation := "";
                  mspapi.Attributes := []; mspapi.CAName := "";
                  mspapi.Secret := "" |}).
    unfold Register, bind, get, calls. cbn.
    destruct Hn as [[ca Hn] | [[e Hn] | [[e Hn] | Hn]]]; rewrite Hn; cbn;
      try (exists 1%nat, r0; reflexivity);
      try (exists 2%nat, r0; reflexivity);
      try (exists 0%nat, r0; reflexivity).
    destruct request as [request|]; cbn; [|exists 2%nat, r0; reflexivity].
    destruct ca as [ca|]; cbn; [|exists 2%nat, r0; reflexivity].
    exists 3%nat. eexists. reflexivity.
  - intros request.
    set (r0 := {| mspapi.Revoke_Name := ""; mspapi.Revoke_Serial := "";
                  mspapi.Revoke_AKI := ""; mspapi.Revoke_Reason := "";
                  mspapi.Revoke_CAName := "" |}).
    unfold Revoke, bind, get, calls. cbn.
    destruct Hn as [[ca Hn] | [[e Hn] | [[e Hn] | Hn]]]; rewrite Hn; cbn;
      try (exists 1%nat, r0; reflexivity);
      try (exists 2%nat, r0; reflexivity);
      try (exists 0%nat, r0; reflexivity).
    destruct request as [request|]; cbn; [|exists 2%nat, r0; reflexivity].
    destruct ca as [ca|]; cbn; [|exists 2%nat, r0; reflexivity].
    exists 3%nat. eexists.
    destruct (mspapi.Revoke ca _) as [[resp|] [e|]]; reflexivity.
Qed.

(** X10. With the CA client resolved, [Register] returns the secret and
    the error of the CA client's [Register] as they are, and the request
    it sends carries the name, type, maximum number of enrollments,
    affiliation, CA name and secret of the caller's request. *)
Theorem Register_passthrough :
  forall (c : MSP) ca lc request,
    newCAClient NewCA (ctx c) (orgName c) c = (Returns (Some ca, None), c, lc) ->
    exists r,
      Register NewCA (Some request) c
      = (Returns (mspapi.Register ca r), c, (lc ++ [EvRegister r])%list)
      /\ mspapi.Name r = Name request
      /\ mspapi.Type_ r = Type_ request
      /\ mspapi.MaxEnrollments r = MaxEnrollments request
      /\ mspapi.Affiliation r = Affiliation request
      /\ mspapi.CAName r = CAName request
      /\ mspapi.Secret r = Secret request.
Proof.
  intros c ca lc request Hn. eexists. split.
  - unfold Register, bind, get. cbn. rewrite Hn. reflexivity.
  - cbn. auto 7.
Qed.

(** X11. A nil request is dereferenced only after the CA client has been
    resolved without error: [Register] and [Revoke] then panic, and the
    CA client is not called. *)
Theorem nil_request_panics :
  forall (c : MSP) ca lc,
    newCAClient NewCA (ctx c) (orgName c) c = (Returns (ca, None), c, lc) ->
    Register NewCA None c = (Panics, c, lc) /\
    Revoke NewCA None c = (Panics, c, lc).
Proof.
  intros c ca lc Hn. split.
  - unfold Register, bind, get. cbn. rewrite Hn. cbn. now rewrite app_nil_r.
  - unfold Revoke, bind, get. cbn. rewrite Hn. cbn. now rewrite app_nil_r.
Qed.

(** X12. [New] does not check the context its provider returns: with a
    nil context, no provider error and a non-empty [WithOrg], it returns
    a facade whose context is nil; without organization name it panics
    when it reaches for the configuration.  On a facade whose context is
    nil every operation panics before any call to a collaborator
    ([Enroll] after applying its options). *)
Theorem nil_context :
  (forall name,
      name <> "" ->
      New (None, None) [WithOrg name] tt
      = (Returns (Some {| orgName := name; ctx := None |}, None), tt,
         [EvClientProvider])) /\
  New (None, None) [] tt = (Panics, tt, [EvClientProvider]) /\
  (forall (c : MSP),
      ctx c = None ->
      (forall id opts eo l,
          applied opts {| secret := "" |} eo l ->
          Enroll NewCA id opts c = (Panics, c, l)) /\
      (forall id, Reenroll NewCA id c = (Panics, c, [])) /\
      (forall request, Register NewCA request c = (Panics, c, [])) /\
      (forall request, Revoke NewCA request c = (Panics, c, [])) /\
      (forall userName, GetUser userName c = (Panics, c, [])) /\
      (forall userName, GetSigningIdentity userName c = (Panics, c, []))).
Proof.
  split; [|split].
  - intros name Hname.
    rewrite (New_after_options _ _ _ _ (applied_WithOrg name _)). cbn.
    apply String.eqb_neq in Hname. now rewrite Hname.
  - reflexivity.
  - intros c Hctx. split; [|split; [|split; [|split; [|split]]]].
    + intros id opts eo l Happ.
      rewrite (Enroll_after_options NewCA id opts eo l c Happ).
      rewrite Hctx. cbn. now rewrite app_nil_r.
    + intros id. unfold Reenroll, bind, get. cbn. now rewrite Hctx.
    + intros request. unfold Register, bind, get. cbn. now rewrite Hctx.
    + intros request. unfold Revoke, bind, get. cbn. now rewrite Hctx.
    + intros userName. unfold GetUser, bind, get. cbn. now rewrite Hctx.
    + intros userName. unfold GetSigningIdentity, GetUser, bind, get. cbn.
      now rewrite Hctx.
Qed.

(** X9. [New] does not look the organization up: for an organization
    without identity manager, named by [WithOrg] or by the client
    configuration (an empty name included), it returns a facade without
    error and without a call to the identity-manager lookup; the missing
    identity manager shows at the first CA operation, which fails with
    "identity manager not found for organization '<org>". *)
Theorem unregistered_organization :
  (forall cx name im,
      name <> "" ->
      context.IdentityManager cx name = (im, false) ->
      exists c,
        New (Some cx, None) [WithOrg name] tt
        = (Returns (Some c, None), tt, [EvClientProvider])
        /\ orgName c = name
        /\ forall id,
            Reenroll NewCA id c
            = (Returns (unavailable name), c, [EvIdentityManager name])) /\
  (forall cx config clientConfig im,
      context.Config cx = Some config ->
      context.Client_ config = (Some clientConfig, None) ->
      context.IdentityManager cx (context.Organization clientConfig)
      = (im, false) ->
      exists c,
        New (Some cx, None) [] tt
        = (Returns (Some c, None), tt, [EvClientProvider; EvConfigClient])
        /\ orgName c = context.Organization clientConfig
        /\ forall id,
            Reenroll NewCA id c
            = (Returns (unavailable (context.Organization clientConfig)), c,
               [EvIdentityManager (context.Organization clientConfig)])).
Proof.
  split.
  - intros cx name im Hname Him.
    exists {| orgName := name; ctx := Some cx |}. split; [|split].
    + rewrite (New_after_options _ _ _ _ (applied_WithOrg name _)). cbn.
      apply String.eqb_neq in Hname. now rewrite Hname.
    + reflexivity.
    + intros id. unfold Reenroll, newCAClient, bind, get, deref, call, ret.
      cbn. rewrite Him. reflexivity.
  - intros cx config clientConfig im Hcfg Hcc Him.
    exists {| orgName := context.Organization clientConfig; ctx := Some cx |}.
    split; [|split].
    + rewrite (New_after_options _ _ _ _ (applied_nil _)). cbn.
      rewrite Hcfg, Hcc. reflexivity.
    + reflexivity.
    + intros id. unfold Reenroll, newCAClient, bind, get, deref, call, ret.
      cbn. rewrite Him. reflexivity.
Qed.
End Calls.

Lemma one_CA_call_after_resolution_witness :
  exists n,
    calls (Enroll Stub.NewCAClient "alice" [WithSecret "s3cr3t"] Stub.org1)
    = ([] ++ firstn n [EvIdentityManager "Org1MSP"; EvNewCAClient "Org1MSP";
                       EvEnroll "alice" "s3cr3t"])%list.
Proof.
  exact (proj1 (one_CA_call_after_resolution Stub.NewCAClient Stub.org1)
           "alice" [WithSecret "s3cr3t"] {| secret := "s3cr3t" |} []
           (applied_WithSecret "s3cr3t" {| secret := "" |})).
Defined.

Lemma Register_passthrough_witness :
  exists r,
    Register Stub.NewCAClient (Some Stub.aliceRequest) Stub.org1
    = (Returns (mspapi.Register Stub.ca r), Stub.org1,
       ([EvIdentityManager "Org1MSP"; EvNewCAClient "Org1MSP"]
          ++ [EvRegister r])%list)
    /\ mspapi.Name r = "alice"
    /\ mspapi.Type_ r = "client"
    /\ mspapi.MaxEnrollments r = 1%Z
    /\ mspapi.Affiliation r = "org1.department1"
    /\ mspapi.CAName r = "ca.org1"
    /\ mspapi.Secret r = "".
Proof.
  exact (Register_passthrough Stub.NewCAClient Stub.org1 Stub.ca _
           Stub.aliceRequest Stub_resolved).
Defined.

Lemma nil_request_panics_witness :
  Register Stub.NewCAClient None Stub.org1
  = (Panics, Stub.org1, [EvIdentityManager "Org1MSP"; EvNewCAClient "Org1MSP"])
  /\ Revoke Stub.NewCAClient None Stub.org1
     = (Panics, Stub.org1,
        [EvIdentityManager "Org1MSP"; EvNewCAClient "Org1MSP"]).
Proof.
  exact (nil_request_panics Stub.NewCAClient Stub.org1 (Some Stub.ca) _
           Stub_resolved).
Defined.

Lemma nil_context_witness :
  New (None, None) [WithOrg "Org1MSP"] tt
  = (Returns (Some Fixture.detached, None), tt, [EvClientProvider]) /\
  Reenroll Stub.NewCAClient "alice" Fixture.detached
  = (Panics, Fixture.detached, []) /\
  GetUser "alice" Fixture.detached = (Panics, Fixture.detached, []).
Proof.
  pose proof (nil_context Stub.NewCAClient) as (N & _ & O).
  pose proof (O Fixture.detached eq_refl) as (_ & R & _ & _ & U & _).
  split; [|split].
  - apply (N "Org1MSP"). discriminate.
  - exact (R "alice").
  - exact (U "alice").
Defined.

Lemma unregistered_organization_witness :
  exists c,
    New (Some Stub.client, None) [WithOrg "Org2MSP"] tt
    = (Returns (Some c, None), tt, [EvClientProvider])
    /\ orgName c = "Org2MSP"
    /\ forall id,
        Reenroll Stub.NewCAClient id c
        = (Returns (unavailable "Org2MSP"), c, [EvIdentityManager "Org2MSP"]).
Proof.
  apply (proj1 (unregistered_organization Stub.NewCAClient) Stub.client
           "Org2MSP" None).
  - discriminate.
  - reflexivity.
Defined.

(** ** Sequences of [WithOrg], and the shape of the results *)

Lemma last_cons {X} (l : list X) (a d : X) : last (a :: l) d = last l a.
Proof.
  revert a d; induction l as [|b l IH]; intros a d; [reflexivity|].
  change (last (a :: b :: l) d) with (last (b :: l) d).
  rewrite (IH b d), (IH b a). reflexivity.
Qed.

Lemma applied_WithOrgs (names : list string) :
  forall msp : MSP,
    applied (map WithOrg names) msp
      {| orgName := last names (orgName msp); ctx := ctx msp |} [].
Proof.
  induction names as [|n names IH]; intros [org cx].
  - constructor.
  - rewrite last_cons. cbn [map].
    change (@nil Event) with (([] : list Event) ++ [])%list.
    econstructor; [reflexivity|].
    exact (IH (set_orgName {| orgName := org; ctx := cx |} n)).
Qed.

(** X13. With a sequence of [WithOrg] options the last one decides.  If
    its name is not empty, that is the facade's organization, the context
    is the provider's and the client configuration is not consulted.  If
    it is empty, the organization is read from the client configuration,
    even when an earlier option named one. *)
Theorem New_WithOrg_sequence :
  forall cx names,
    (last names "" <> "" ->
     New (cx, None) (map WithOrg names) tt
     = (Returns (Some {| orgName := last names ""; ctx := cx |}, None), tt,
        [EvClientProvider])) /\
    (forall c config clientConfig,
        last names "" = "" ->
        cx = Some c ->
        context.Config c = Some config ->
        context.Client_ config = (Some clientConfig, None) ->
        New (cx, None) (map WithOrg names) tt
        = (Returns (Some {| orgName := context.Organization clientConfig;
                            ctx := cx |}, None), tt,
           [EvClientProvider; EvConfigClient])).
Proof.
  intros cx names.
  pose proof (New_after_options cx (map WithOrg names) _ []
                (applied_WithOrgs names {| orgName := ""; ctx := cx |})) as H.
  cbn [orgName ctx] in H. split.
  - intros Hlast. rewrite H. apply String.eqb_neq in Hlast.
    now rewrite Hlast.
  - intros c config clientConfig Hlast -> Hcfg Hcc. rewrite H.
    rewrite Hlast, Hcfg, Hcc. cbn. reflexivity.
Qed.

Lemma New_WithOrg_sequence_witness :
  New (Some Stub.client, None)
    (map WithOrg ["Org1MSP"; "Org2MSP"]) tt
  = (Returns (Some Stub.org2, None), tt, [EvClientProvider]) /\
  New (Some Stub.client, None) (map WithOrg ["Org2MSP"; ""]) tt
  = (Returns (Some Stub.org1, None), tt, [EvClientProvider; EvConfigClient]).
Proof.
  split.
  - apply (proj1 (New_WithOrg_sequence (Some Stub.client)
                    ["Org1MSP"; "Org2MSP"])).
    discriminate.
  - apply (proj2 (New_WithOrg_sequence (Some Stub.client) ["Org2MSP"; ""])
             Stub.client Stub.config {| context.Organization := "Org1MSP" |});
      reflexivity.
Defined.

Section Shape.
Variable NewCA :
  string -> option mspctx.IdentityManager -> handle -> handle ->
  option context.Config_ -> option mspapi.CAClient * error.

(** An early return of the option loop carries the wrapped error of an
    option. *)
Lemma for_range_early {S R} (fail : error -> R) (opts : list (M S error)) :
  forall s s' l r,
    for_range opts
      (fun param =>
         err <- param ;;
         match err with
         | Some _ => ret (Some (fail err))
         | None => ret None
         end) s
    = (Returns (Some r), s', l) ->
    exists e, r = fail (Some e).
Proof.
  induction opts as [|o opts IH]; intros s s' l r H; cbn in H.
  - discriminate.
  - unfold bind at 1 2 in H.
    destruct (o s) as [[[[e|]|] s1] l1]; cbn in H.
    + injection H as <- _ _. eauto.
    + match type of H with
      | context [for_range opts ?body s1] =>
          destruct (for_range opts body s1) as [[o2 s2] l2] eqn:Hr
      end.
      injection H as -> _ _. eapply IH. exact Hr.
    + discriminate.
Qed.

(** X14. Whenever they return, [New], [Revoke] and [GetSigningIdentity]
    return exactly one of a value and an error: never a value together
    with an error, never nil with a nil error.  For [New] this holds
    with any provider and any options. *)
Theorem value_or_error :
  (forall provider opts, exclusive (result (New provider opts tt))) /\
  (forall (c : MSP) request, exclusive (result (Revoke NewCA request c))) /\
  (forall (c : MSP) userName,
      exclusive (result (GetSigningIdentity userName c))).
Proof.
  split; [|split].
  - intros [cx [e|]] opts; [exact I|].
    unfold New, ClientOption. unfold bind at 1. cbn.
    unfold bind at 1. unfold scoped.
    match goal with
    | |- context [for_range opts ?body ?init] =>
        destruct (for_range opts body init) as [[[[r|]|] msp] l] eqn:Hloop
    end;
      unfold ClientOption in Hloop; rewrite ?Hloop; cbn.
    + apply (for_range_early
               (fun err =>
                  (@None MSP, errors.WithMessage err "failed to create MSP")))
        in Hloop.
      destruct Hloop as [e ->]. exact I.
    + destruct (String.eqb (orgName msp) ""); cbn; [|exact I].
      destruct cx as [c|]; cbn; [|exact I].
      destruct (context.Config c) as [config|]; cbn; [|exact I].
      destruct (context.Client_ config) as [[clientConfig|] [e|]]; cbn;
        exact I.
    + exact I.
  - intros c request. unfold Revoke, bind, get, result. cbn.
    destruct (newCAClient_outcomes NewCA (ctx c) (orgName c) c)
      as [[ca Hn] | [[e Hn] | [[e Hn] | Hn]]]; rewrite Hn; cbn;
      try exact I.
    destruct request as [request|]; cbn; [|exact I].
    destruct ca as [ca|]; cbn; [|exact I].
    destruct (mspapi.Revoke ca _) as [[resp|] [e|]]; cbn; exact I.
  - intros c userName. unfold GetSigningIdentity, bind, result.
    destruct (GetUser userName c) as [[[[[user|] [e|]]|] s] l]; cbn;
      try exact I;
      destruct (errorValue_eqb e mspctx.ErrUserNotFound); exact I.
Qed.
End Shape.
